(** * our-mcp-base: response envelopes, tool router and server base

    A shallow embedding of [responses.py], [router.py] and [server.py].

    - A Python [dict[str, Any]] is a [gmap string pyval]; Leibniz equality of
      maps is Python's [==] on dicts (key order is not observed by it).
    - A Python callable that may have effects and may raise is a function
      [W -> result A * W] over a world [W] that is left abstract: whatever a
      handler, a hook or the transport touches lives there.
    - An exception instance carries its class, and a class carries its bases,
      so [isinstance] and [except Exception] are computed as Python does; it
      also carries what [str] does on it, which is to give a text or to
      raise. *)

From Stdlib Require Import ZArith.
From stdpp Require Import gmap strings list fin_maps pretty.

Set Warnings "-register-all".
Local Open Scope string_scope.

(** ** Python values *)

(** The fragment of [Any] that the envelopes carry.  [VObj] stands for any
    other object, by the name of its type and the text [str] gives for it. *)
Inductive pyval : Type :=
| VNone
| VBool (b : bool)
| VInt (z : Z)
| VStr (s : string)
| VList (l : list pyval)
| VDict (d : gmap string pyval)
| VObj (tyname : string) (text : string).

(** [**kwargs] and the returned [dict[str, Any]]. *)
Abbreviation pydict := (gmap string pyval).

(** ** responses.py *)

Module Responses.

(** [{"success": True, **kwargs}]: the literal entry is written first and the
    unpacked entries afterwards, so an unpacked key replaces a literal one.
    [∪] on maps is biased to its left operand. *)
Definition success_response (kwargs : pydict) : pydict :=
  kwargs ∪ {[ "success" := VBool true ]}.

(** [{"success": False, "error": error, **kwargs}].  A call that passes
    [error] both positionally and inside [**kwargs] does not reach the body
    (the call itself is a [TypeError]), so [kwargs] has no key ["error"]
    whenever the body runs. *)
Definition error_response (error : string) (kwargs : pydict) : pydict :=
  kwargs ∪ <[ "error" := VStr error ]> {[ "success" := VBool false ]}.

(** [error_response(f"{resource_type} not found: {resource_id}")] *)
Definition not_found_response (resource_type resource_id : string) : pydict :=
  error_response (resource_type +:+ " not found: " +:+ resource_id) ∅.

(** The envelope invariant of the data model, as a decidable check:
    [success=True] comes without an [error] key, [success=False] comes with
    an [error] key holding a string. *)
Definition envelope_ok (env : pydict) : bool :=
  match env !! "success" with
  | Some (VBool true) =>
      match env !! "error" with None => true | Some _ => false end
  | Some (VBool false) =>
      match env !! "error" with Some (VStr _) => true | _ => false end
  | _ => false
  end.

End Responses.

Import Responses.

(** ** Exceptions *)

(** A class is known by its name and its direct bases ([object] is left
    out).  Two classes are the same class when they agree on both. *)
Inductive pyclass : Type :=
| Class (name : string) (bases : list pyclass).

Definition class_name (c : pyclass) : string :=
  match c with Class n _ => n end.

Definition class_bases (c : pyclass) : list pyclass :=
  match c with Class _ bs => bs end.

Fixpoint class_eqb (c d : pyclass) {struct c} : bool :=
  match c, d with
  | Class n bs, Class m ds =>
      String.eqb n m &&
      (fix all2 (xs ys : list pyclass) {struct xs} : bool :=
         match xs, ys with
         | [], [] => true
         | x :: xs', y :: ys' => class_eqb x y && all2 xs' ys'
         | _, _ => false
         end) bs ds
  end.

(** [issubclass(c, d)]: [d] is [c] itself or is reached through the bases. *)
Fixpoint issubclass (c d : pyclass) {struct c} : bool :=
  class_eqb c d ||
  match c with
  | Class _ bs => existsb (fun b => issubclass b d) bs
  end.

Module Builtins.
Definition BaseException : pyclass := Class "BaseException" [].
Definition Exception : pyclass := Class "Exception" [BaseException].
Definition SystemExit : pyclass := Class "SystemExit" [BaseException].
Definition KeyboardInterrupt : pyclass := Class "KeyboardInterrupt" [BaseException].
Definition RuntimeError : pyclass := Class "RuntimeError" [Exception].
Definition ValueError : pyclass := Class "ValueError" [Exception].
End Builtins.

(** An exception instance.  [SysExit code] is the [SystemExit] that
    [sys.exit(code)] raises; [Exc cls msg] is an instance of [cls] for which
    [str] gives [msg]; [Unprintable cls failure] is an instance of [cls]
    whose [__str__] raises [failure]. *)
Inductive exc : Type :=
| SysExit (code : Z)
| Exc (cls : pyclass) (msg : string)
| Unprintable (cls : pyclass) (failure : exc).

Definition type_of (e : exc) : pyclass :=
  match e with
  | SysExit _ => Builtins.SystemExit
  | Exc cls _ => cls
  | Unprintable cls _ => cls
  end.

Definition isinstance (e : exc) (cls : pyclass) : bool :=
  issubclass (type_of e) cls.

(** ** Calls that may raise and may change the world *)

Inductive result (A : Type) : Type :=
| Ok (a : A)
| Raise (e : exc).
Arguments Ok {A} a.
Arguments Raise {A} e.

(** [str(e)], which [{e!s}] evaluates: the text, or what [__str__] raises. *)
Definition str (e : exc) : result string :=
  match e with
  | SysExit code => Ok (pretty code)
  | Exc _ msg => Ok msg
  | Unprintable _ failure => Raise failure
  end.

Definition M (W A : Type) : Type := W -> result A * W.

Section Monad.
Context {W : Type}.

Definition ret {A} (a : A) : M W A := fun w => (Ok a, w).

Definition raise {A} (e : exc) : M W A := fun w => (Raise e, w).

Definition bind {A B} (c : M W A) (k : A -> M W B) : M W B :=
  fun w =>
    match c w with
    | (Ok a, w1) => k a w1
    | (Raise e, w1) => (Raise e, w1)
    end.

(** A world change that returns nothing and cannot raise. *)
Definition effect (f : W -> W) : M W unit := fun w => (Ok tt, f w).

(** The outcome of a pure call that may raise. *)
Definition lift_result {A} (r : result A) : M W A := fun w => (r, w).

(** [try: body  except Exception as e: handler(e)].  An exception that is
    not an instance of [Exception] passes through the clause. *)
Definition try_except_Exception {A} (body : M W A) (handler : exc -> M W A) : M W A :=
  fun w =>
    match body w with
    | (Ok a, w1) => (Ok a, w1)
    | (Raise e, w1) =>
        if isinstance e Builtins.Exception then handler e w1 else (Raise e, w1)
    end.
End Monad.

Notation "'do' x <- c ; k" := (bind c (fun x => k))
  (at level 10, x name, c at level 100, k at level 200).
Notation "c ;; k" := (bind c (fun _ => k))
  (at level 100, k at level 200, right associativity).

(** ** router.py *)

Module Router.

(** A registered callable, applied to its keyword arguments. *)
Abbreviation handler W := (pydict -> M W pydict).

Section Router.
Context {W : Type}.

Record ToolRouter : Type := { _handlers : gmap string (handler W) }.

(** [ToolRouter()] *)
Definition new : ToolRouter := {| _handlers := ∅ |}.

(** [register(name)(func)]: [self._handlers[name] = func; return func].
    The router after the assignment comes with the returned callable. *)
Definition register (name : string) (func : handler W) (self : ToolRouter)
  : ToolRouter * handler W :=
  ({| _handlers := <[ name := func ]> (_handlers self) |}, func).

Definition dispatch (self : ToolRouter) (name : string) (arguments : pydict)
  : M W pydict :=
  match _handlers self !! name with
  | None => ret (error_response ("Unknown tool: " +:+ name) ∅)
  | Some handler => handler arguments
  end.

Definition has_tool (self : ToolRouter) (name : string) : bool :=
  bool_decide (is_Some (_handlers self !! name)).
End Router.
Arguments ToolRouter W : clear implicits.
End Router.

(** ** server.py *)

Module Server.

(** [TextContent(type=..., text=...)] *)
Record TextContent : Type := { type : string; text : string }.

(** The parser that [parse_args] builds: its description and the
    [store_true] options that [add_argument] added to it, in order.  What
    every [ArgumentParser] has from its construction ([-h], [--help]) is
    not listed. *)
Record ArgumentParser : Type := {
  description : string;
  options : list string
}.

Definition add_argument (flag : string) (parser : ArgumentParser) : ArgumentParser :=
  {| description := description parser; options := options parser ++ [flag] |}%list.

(** [argparse.Namespace]: the attributes that were set. *)
Abbreviation Namespace := (gmap string bool).

(** [getattr(args, name, default)] *)
Definition getattr (args : Namespace) (name : string) (default : bool) : bool :=
  match args !! name with
  | Some b => b
  | None => default
  end.

(** A recovery function of the chain: [handler(e, name)]. *)
Abbreviation recovery W := (exc -> string -> M W (list TextContent)).

Section Server.
Context {W : Type}.

(** What the module takes from outside the repository. *)
(** [logger.info(msg)] *)
Variable logger_info : string -> W -> W.
(** [logger.exception(msg)] while [e] is being handled *)
Variable logger_exception : string -> exc -> W -> W.
(** [json.dumps(obj, indent=..., default=str)] when [default_str] is set,
    [json.dumps(obj)] with [indent = None] and [default_str] unset *)
Variable json_dumps : option nat -> bool -> pyval -> result string.
(** [parser.parse_args()], which reads [sys.argv] *)
Variable argparse_parse_args : ArgumentParser -> M W Namespace.
(** [asyncio.run(main())]: the stdio transport serving until it closes *)
Variable asyncio_run_main : M W unit.

(** The instance: the class attributes, what [__init__] stores and the
    abstract method a subclass supplies. *)
Record MCPServerBase : Type := {
  server_name : string;
  server_description : string;
  _startup_hook : option (M W unit);
  _health_check : option (M W Z);
  _error_handlers : list (pyclass * recovery W);
  handle_tool : string -> pydict -> M W pydict
}.

(** [sys.exit(code)] *)
Definition sys_exit {A} (code : Z) : M W A := raise (SysExit code).

(** The [for exc_type, handler in self._error_handlers] loop with its
    early [return], followed by the code after the loop ([default]). *)
Fixpoint scan_error_handlers (handlers : list (pyclass * recovery W))
    (e : exc) (name : string) (default : M W (list TextContent))
  : M W (list TextContent) :=
  match handlers with
  | [] => default
  | (exc_type, handler) :: rest =>
      if isinstance e exc_type then handler e name
      else scan_error_handlers rest e name default
  end.

(** The dict that the default branch serialises, [message] being the text
    that [{e!s}] gave. *)
Definition internal_error (message : string) : pydict :=
  <[ "error" := VStr ("Internal error: " +:+ message) ]> {[ "success" := VBool false ]}.

(** The code after the loop: log, then answer with the generic error.  The
    f-string is evaluated after the logging and before [json.dumps]; nothing
    stands around it, so what [__str__] raises leaves the handler. *)
Definition default_handler (e : exc) (name : string) : M W (list TextContent) :=
  effect (logger_exception ("Unexpected error in tool " +:+ name) e) ;;
  do message <- lift_result (str e);
  do s <- lift_result (json_dumps None false (VDict (internal_error message)));
  ret [ {| type := "text"; text := s |} ].

Definition _handle_tool_call (self : MCPServerBase) (name : string)
    (arguments : pydict) : M W (list TextContent) :=
  try_except_Exception
    (do result <- handle_tool self name arguments;
     do s <- lift_result (json_dumps (Some 2) true (VDict result));
     ret [ {| type := "text"; text := s |} ])
    (fun e =>
       scan_error_handlers (_error_handlers self) e name (default_handler e name)).

Definition parse_args (self : MCPServerBase) : M W Namespace :=
  let parser := {| description := server_description self; options := [] |} in
  let parser :=
    if _health_check self is Some _ then add_argument "--health-check" parser
    else parser in
  let parser :=
    if _startup_hook self is Some _ then add_argument "--skip-startup-hook" parser
    else parser in
  argparse_parse_args parser.

Definition run (self : MCPServerBase) : M W unit :=
  do args <- parse_args self;
  (match _health_check self with
   | Some health_check =>
       if getattr args "health_check" false
       then (do code <- health_check; sys_exit code)
       else ret tt
   | None => ret tt
   end) ;;
  effect (logger_info (server_name self +:+ " MCP server starting...")) ;;
  (match _startup_hook self with
   | Some startup_hook =>
       if negb (getattr args "skip_startup_hook" false)
       then try_except_Exception
              (startup_hook ;;
               effect (logger_info "Startup hook completed"))
              (fun e =>
                 effect (logger_exception "Startup hook failed" e) ;;
                 raise e)
       else ret tt
   | None => ret tt
   end) ;;
  asyncio_run_main.

End Server.
End Server.

(** The status the process ends with, on a POSIX system, when [run()] is
    the last statement of the program: [0] after a normal return, [1] after
    an uncaught exception other than [SystemExit].  For an uncaught
    [SystemExit] the interpreter hands the code to [exit] as a C [int], of
    which the system keeps the low 8 bits; a code that does not fit 64 bits
    is replaced by [-1]. *)
Definition exit_status (r : result unit) : Z :=
  match r with
  | Ok _ => 0
  | Raise (SysExit code) =>
      if (- 2 ^ 63 <=? code) && (code <? 2 ^ 63) then code mod 256 else 255
  | Raise _ => 1
  end%Z.

(** ** Observing calls

    To say that a callable was or was not invoked, the world is paired with
    a list of the calls made so far and every callable handed to the code is
    wrapped so that it adds its own entry.  The wrapped callable cannot see
    the list, so it behaves as the original does. *)

Inductive call : Type :=
| CallHandler (name : string)      (* a handler registered in a router *)
| CallHandleTool                   (* the abstract [handle_tool] *)
| CallErrorHandler (i : nat)       (* entry [i] of [error_handlers] *)
| CallStartupHook
| CallHealthCheck
| CallServe.                       (* [asyncio.run(main())] *)

Section Traced.
Context {W : Type}.

Definition traced {A} (c : call) (f : M W A) : M (W * list call) A :=
  fun s => let '(r, w') := f s.1 in (r, (w', (s.2 ++ [c])%list)).

Definition untraced {A} (f : M W A) : M (W * list call) A :=
  fun s => let '(r, w') := f s.1 in (r, (w', s.2)).

Definition on_world (f : W -> W) : W * list call -> W * list call :=
  fun s => (f s.1, s.2).

Definition traced_router (self : Router.ToolRouter W)
  : Router.ToolRouter (W * list call) :=
  {| Router._handlers :=
       map_imap (fun name h => Some (fun arguments => traced (CallHandler name) (h arguments)))
                (Router._handlers self) |}.

Definition traced_error_handlers (hs : list (pyclass * Server.recovery W))
  : list (pyclass * Server.recovery (W * list call)) :=
  imap (fun i '(exc_type, h) =>
          (exc_type, fun e name => traced (CallErrorHandler i) (h e name))) hs.

Definition traced_server (self : @Server.MCPServerBase W)
  : @Server.MCPServerBase (W * list call) :=
  {| Server.server_name := Server.server_name self;
     Server.server_description := Server.server_description self;
     Server._startup_hook := traced CallStartupHook <$> Server._startup_hook self;
     Server._health_check := traced CallHealthCheck <$> Server._health_check self;
     Server._error_handlers := traced_error_handlers (Server._error_handlers self);
     Server.handle_tool := fun name arguments =>
       traced CallHandleTool (Server.handle_tool self name arguments) |}.
End Traced.

(** The entry of the chain that the scan stops at, if any. *)
Definition first_match {H : Type} (handlers : list (pyclass * H)) (e : exc)
  : option (pyclass * H) :=
  List.find (fun entry => isinstance e entry.1) handlers.

(** Values that [json.dumps] writes without calling [default]. *)
Definition scalar (v : pyval) : bool :=
  match v with
  | VNone | VBool _ | VInt _ | VStr _ => true
  | _ => false
  end.

(** [needle in haystack] on strings. *)
Definition contains (haystack needle : string) : Prop :=
  exists pre post, haystack = pre +:+ needle +:+ post.

(** ** router.py, with the order of the dict kept

    [tool_names] shows the order in which the keys of [_handlers] were first
    inserted, which a [gmap] does not keep.  Here the dict is the list of its
    entries in that order; [abstract] forgets the order and gives the
    router of [Router]. *)
Module Ordered.
Section Ordered.
Context {W : Type}.

(** [d[name] = func]: an entry that is present keeps its place and takes
    the new value, a new entry goes to the end. *)
Fixpoint setitem (name : string) (func : Router.handler W)
    (d : list (string * Router.handler W)) : list (string * Router.handler W) :=
  match d with
  | [] => [(name, func)]
  | (k, v) :: rest =>
      if decide (k = name) then (k, func) :: rest
      else (k, v) :: setitem name func rest
  end.

(** [d.get(name)] *)
Fixpoint get (name : string) (d : list (string * Router.handler W))
  : option (Router.handler W) :=
  match d with
  | [] => None
  | (k, v) :: rest => if decide (k = name) then Some v else get name rest
  end.

Record ToolRouter : Type := { _handlers : list (string * Router.handler W) }.

Definition new : ToolRouter := {| _handlers := [] |}.

Definition register (name : string) (func : Router.handler W) (self : ToolRouter)
  : ToolRouter * Router.handler W :=
  ({| _handlers := setitem name func (_handlers self) |}, func).

Definition dispatch (self : ToolRouter) (name : string) (arguments : pydict)
  : M W pydict :=
  match get name (_handlers self) with
  | None => ret (error_response ("Unknown tool: " +:+ name) ∅)
  | Some handler => handler arguments
  end.

(** [name in self._handlers] *)
Definition has_tool (self : ToolRouter) (name : string) : bool :=
  bool_decide (name ∈ (_handlers self).*1).

(** [list(self._handlers.keys())] *)
Definition tool_names (self : ToolRouter) : list string := (_handlers self).*1.

(** The router after the registrations [regs], made in that order on a new
    router. *)
Definition registered (regs : list (string * Router.handler W)) : ToolRouter :=
  foldl (fun self reg => (register reg.1 reg.2 self).1) new regs.

Definition abstract (self : ToolRouter) : Router.ToolRouter W :=
  {| Router._handlers := list_to_map (_handlers self) |}.
End Ordered.
Arguments ToolRouter W : clear implicits.
End Ordered.

(** ** server.py: construction *)

Module Construction.
Section Construction.
Context {W : Type}.

(** [error_handlers or []] *)
Definition or_empty {A} (error_handlers : option (list A)) : list A :=
  match error_handlers with
  | Some (x :: l) => x :: l
  | _ => []
  end.

(** [__init__] of a subclass that sets [server_name], [server_description]
    and [handle_tool]: the three optional arguments are stored.  The
    [mcp.server.Server] object it also creates belongs to the transport and
    is not kept here. *)
Definition __init__ (server_name server_description : string)
    (handle_tool : string -> pydict -> M W pydict)
    (startup_hook : option (M W unit)) (health_check : option (M W Z))
    (error_handlers : option (list (pyclass * Server.recovery W)))
  : @Server.MCPServerBase W :=
  {| Server.server_name := server_name;
     Server.server_description := server_description;
     Server._startup_hook := startup_hook;
     Server._health_check := health_check;
     Server._error_handlers := or_empty error_handlers;
     Server.handle_tool := handle_tool |}.
End Construction.
End Construction.

(** ** A bench to run the definitions on

    The world is the list of lines written so far; the logger writes a
    line, the transport writes ["serving"] and returns. *)
Module Bench.
Import Server.

Definition W : Type := list string.

Definition logger_info (msg : string) (w : W) : W :=
  (w ++ ["INFO " +:+ msg])%list.

(** The text of [e] in a log line; the traceback printer writes a
    placeholder for an exception whose [__str__] raises. *)
Definition text_of (e : exc) : string :=
  match str e with
  | Ok s => s
  | Raise _ => "<exception str() failed>"
  end.

Definition logger_exception (msg : string) (e : exc) (w : W) : W :=
  (w ++ ["ERROR " +:+ msg +:+ ": " +:+ text_of e])%list.

Definition quoted (s : string) : string :=
  let q := String (Ascii.ascii_of_nat 34) EmptyString in q +:+ s +:+ q.

Definition render_scalar (v : pyval) : string :=
  match v with
  | VNone => "null"
  | VBool true => "true"
  | VBool false => "false"
  | VInt z => pretty z
  | VStr s => quoted s
  | _ => "..."
  end.

(** Stands in for [json.dumps] on the dicts of the examples: one level,
    entries in the order the map lists them, no escaping. *)
Definition sample_dumps (indent : option nat) (default_str : bool) (v : pyval)
  : result string :=
  match v with
  | VDict d =>
      Ok ("{" +:+
          String.concat ", "
            (List.map (fun kv => quoted kv.1 +:+ ": " +:+ render_scalar kv.2)
                      (map_to_list d)) +:+
          "}")
  | _ => Ok (render_scalar v)
  end.

Definition dest (flag : string) : string :=
  if String.eqb flag "--health-check" then "health_check"
  else if String.eqb flag "--skip-startup-hook" then "skip_startup_hook"
  else flag.

(** Stands in for [parser.parse_args()] with [sys.argv[1:] = argv]: every
    option of the parser becomes an attribute that tells whether the flag
    was given; an argument the parser does not know ends the process with
    status 2. *)
Definition parse_argv (argv : list string) (parser : ArgumentParser)
  : M W Namespace :=
  if forallb (fun a => existsb (String.eqb a) (options parser)) argv
  then ret (list_to_map
              (List.map (fun flag => (dest flag, existsb (String.eqb flag) argv))
                        (options parser)))
  else raise (SysExit 2).

Definition serve : M W unit := effect (fun w => (w ++ ["serving"])%list).

Definition BaseError : pyclass := Class "BaseError" [Builtins.Exception].
Definition SpecificError : pyclass := Class "SpecificError" [BaseError].
Definition HandledError : pyclass := Class "HandledError" [Builtins.Exception].
Definition UnhandledError : pyclass := Class "UnhandledError" [Builtins.Exception].

Definition reply (s : string) : recovery W :=
  fun _ _ => ret [ {| type := "text"; text := s |} ].

Definition server (hook : option (M W unit)) (health : option (M W Z))
    (chain : list (pyclass * recovery W)) (failure : exc) : MCPServerBase :=
  {| server_name := "test";
     server_description := "MCP Server";
     _startup_hook := hook;
     _health_check := health;
     _error_handlers := chain;
     handle_tool := fun _ _ => raise failure |}.

(** [error_handlers=[(SpecificError, handle_specific), (BaseError, handle_base)]]
    and a [handle_tool] that raises [SpecificError("oops")]. *)
Definition ordered_server : MCPServerBase :=
  server None None
    [ (SpecificError, reply "specific"); (BaseError, reply "base") ]
    (Exc SpecificError "oops").

(** [error_handlers=[(HandledError, handle_handled)]] and a [handle_tool]
    that raises [UnhandledError("nope")]. *)
Definition unmatched_server : MCPServerBase :=
  server None None [ (HandledError, reply "handled") ] (Exc UnhandledError "nope").

(** A recovery function that itself raises. *)
Definition failing_recovery : recovery W :=
  fun _ _ => raise (Exc Builtins.RuntimeError "recovery failed").

Definition failing_recovery_server : MCPServerBase :=
  server None None [ (Builtins.ValueError, failing_recovery) ]
    (Exc Builtins.ValueError "bad input").

(** A [handle_tool] that raises an exception whose [__str__] raises. *)
Definition unprintable_server : MCPServerBase :=
  server None None [ (HandledError, reply "handled") ]
    (Unprintable UnhandledError (Exc Builtins.RuntimeError "no text")).

(** A [handle_tool] interrupted from the keyboard. *)
Definition interrupted_server : MCPServerBase :=
  server None None [ (HandledError, reply "handled") ]
    (Exc Builtins.KeyboardInterrupt EmptyString).

Definition marking_hook : M W unit := effect (fun w => (w ++ ["hook ran"])%list).

(** [health_check=lambda: code] together with a startup hook. *)
Definition health_server (code : Z) : MCPServerBase :=
  server (Some marking_hook) (Some (ret code)) [] (Exc Builtins.RuntimeError "unused").

Definition hook_server (hook : M W unit) : MCPServerBase :=
  server (Some hook) None [] (Exc Builtins.RuntimeError "unused").

(** A handler that answers with its own arguments and leaves a line. *)
Definition echo_handler : Router.handler W :=
  fun arguments w => (Ok (success_response arguments), (w ++ ["echo"])%list).

Definition echo_router : Router.ToolRouter W :=
  (Router.register "echo" echo_handler Router.new).1.

(** A startup hook that leaves through [sys.exit(3)]. *)
Definition exiting_hook : M W unit := sys_exit 3.

(** A startup hook that raises [RuntimeError("DB connection failed")]. *)
Definition failing_hook : M W unit :=
  raise (Exc Builtins.RuntimeError "DB connection failed").

(** A server whose [handle_tool] is [router.dispatch]. *)
Definition router_server (router : Router.ToolRouter W)
    (chain : list (pyclass * recovery W)) : MCPServerBase :=
  {| server_name := "test";
     server_description := "MCP Server";
     _startup_hook := None;
     _health_check := None;
     _error_handlers := chain;
     handle_tool := Router.dispatch router |}.

(** A handler that raises [ValueError("bad input")]. *)
Definition raising_handler : Router.handler W :=
  fun _ => raise (Exc Builtins.ValueError "bad input").

Definition mixed_router : Router.ToolRouter W :=
  (Router.register "boom" raising_handler echo_router).1.

(** Stands in for a [json.dumps] that meets a value it cannot write: a dict
    with the key ["loop"] is refused with a [ValueError]. *)
Definition picky_dumps (indent : option nat) (default_str : bool) (v : pyval)
  : result string :=
  match v with
  | VDict d =>
      if decide (is_Some (d !! "loop"))
      then Raise (Exc Builtins.ValueError "Circular reference detected")
      else sample_dumps indent default_str v
  | _ => sample_dumps indent default_str v
  end.

(** A handler that answers with a dict holding the key ["loop"]. *)
Definition looping_handler : Router.handler W :=
  fun _ => ret {[ "loop" := VNone ]}.

Definition looping_router : Router.ToolRouter W :=
  (Router.register "loop" looping_handler Router.new).1.

(** A health check that raises. *)
Definition failing_health_check : M W Z :=
  raise (Exc Builtins.RuntimeError "probe failed").

(** The matching entry comes second: [HandledError] does not match a
    [SpecificError], [BaseError] does. *)
Definition second_entry_server : MCPServerBase :=
  server None None
    [ (HandledError, reply "handled"); (BaseError, reply "base") ]
    (Exc SpecificError "oops").

(** The general entry comes first and hides the specific one. *)
Definition shadowed_server : MCPServerBase :=
  server None None
    [ (BaseError, reply "base"); (SpecificError, reply "specific") ]
    (Exc SpecificError "oops").

Definition run_with (argv : list string) (self : MCPServerBase) : M W unit :=
  run logger_info logger_exception (parse_argv argv) serve self.

Definition call_tool (self : MCPServerBase) (name : string) : M W (list TextContent) :=
  _handle_tool_call logger_exception sample_dumps self name ∅.
End Bench.

Example bench_health_check :
  Bench.run_with ["--health-check"] (Bench.health_server 1) [] = (Raise (SysExit 1), []).
Proof. reflexivity. Qed.

Example bench_hook_then_serve :
  Bench.run_with [] (Bench.hook_server Bench.marking_hook) [] =
  (Ok tt, ["INFO test MCP server starting..."; "hook ran";
           "INFO Startup hook completed"; "serving"]).
Proof. reflexivity. Qed.

Example bench_ordered :
  Bench.call_tool Bench.ordered_server "tool" [] =
  (Ok [ {| Server.type := "text"; Server.text := "specific" |} ], []).
Proof. reflexivity. Qed.

Example bench_unmatched :
  Bench.call_tool Bench.unmatched_server "tool" [] =
  (Ok [ {| Server.type := "text";
           Server.text :=
             "{" +:+ Bench.quoted "success" +:+ ": false, " +:+
             Bench.quoted "error" +:+ ": " +:+ Bench.quoted "Internal error: nope" +:+ "}" |} ],
   ["ERROR Unexpected error in tool tool: nope"]).
Proof. vm_compute. reflexivity. Qed.

Example bench_unprintable :
  Bench.call_tool Bench.unprintable_server "tool" [] =
  (Raise (Exc Builtins.RuntimeError "no text"),
   ["ERROR Unexpected error in tool tool: <exception str() failed>"]).
Proof. vm_compute. reflexivity. Qed.

(** * Properties *)

(** ** Classes *)

Lemma pyclass_nested_ind (P : pyclass -> Prop) :
  (forall n bs, Forall P bs -> P (Class n bs)) -> forall c, P c.
Proof.
  intros step. fix IH 1. intros [n bs]. apply step.
  induction bs as [|b bs IHbs]; constructor; [apply IH | exact IHbs].
Qed.

Lemma class_eqb_eq (c d : pyclass) : class_eqb c d = true <-> c = d.
Proof.
  revert d. induction c as [n bs IH] using pyclass_nested_ind.
  intros [m ds]. simpl. rewrite andb_true_iff, String.eqb_eq.
  assert (Hlist :
    (fix all2 (xs ys : list pyclass) {struct xs} : bool :=
       match xs, ys with
       | [], [] => true
       | x :: xs', y :: ys' => class_eqb x y && all2 xs' ys'
       | _, _ => false
       end) bs ds = true <-> bs = ds).
  { revert ds. induction IH as [|b bs Hb _ IHbs]; intros [|d ds]; simpl;
      try (split; [discriminate | discriminate]); [tauto|].
    rewrite andb_true_iff, Hb, IHbs. split; [intros [-> ->]; reflexivity|].
    intros Heq; injection Heq; auto. }
  rewrite Hlist. split; [intros [-> ->]; reflexivity|].
  intros Heq; injection Heq; auto.
Qed.

Lemma class_eqb_refl (c : pyclass) : class_eqb c c = true.
Proof. by apply class_eqb_eq. Qed.

Lemma issubclass_unfold (c d : pyclass) :
  issubclass c d = class_eqb c d || existsb (fun b => issubclass b d) (class_bases c).
Proof. destruct c; reflexivity. Qed.

Lemma issubclass_refl (c : pyclass) : issubclass c c = true.
Proof. rewrite issubclass_unfold, class_eqb_refl. reflexivity. Qed.

Lemma issubclass_base (c b d : pyclass) :
  b ∈ class_bases c -> issubclass b d = true -> issubclass c d = true.
Proof.
  intros Hin Hb. rewrite issubclass_unfold. apply orb_true_iff. right.
  apply existsb_exists. exists b. split; [by apply list_elem_of_In | exact Hb].
Qed.

Lemma issubclass_trans (c d d' : pyclass) :
  issubclass c d = true -> issubclass d d' = true -> issubclass c d' = true.
Proof.
  induction c as [n bs IH] using pyclass_nested_ind.
  intros Hcd Hdd'. rewrite issubclass_unfold in Hcd.
  apply orb_true_iff in Hcd as [Heq | Hbase].
  - apply class_eqb_eq in Heq. by subst d.
  - apply existsb_exists in Hbase as (b & Hin & Hb).
    apply list_elem_of_In in Hin.
    apply (issubclass_base _ b); [exact Hin|].
    rewrite Forall_forall in IH. by apply IH.
Qed.

(** An instance of a class is an instance of every class above it. *)
Lemma isinstance_up (e : exc) (c d : pyclass) :
  isinstance e c = true -> issubclass c d = true -> isinstance e d = true.
Proof. unfold isinstance. apply issubclass_trans. Qed.

(** ** The scan of the error-handler chain *)

Section Scan.
Context {W : Type}.
Implicit Types (hs : list (pyclass * Server.recovery W)) (e : exc).

Lemma scan_first_match hs e name default :
  Server.scan_error_handlers hs e name default =
  match first_match hs e with
  | Some entry => entry.2 e name
  | None => default
  end.
Proof.
  unfold first_match.
  induction hs as [|[exc_type h] rest IH]; simpl; [reflexivity|].
  destruct (isinstance e exc_type); [reflexivity | exact IH].
Qed.

Lemma first_match_none hs e :
  Forall (fun entry => isinstance e entry.1 = false) hs ->
  first_match hs e = None.
Proof.
  unfold first_match. induction 1 as [|[exc_type h] rest Hno _ IH]; simpl;
    [reflexivity|].
  simpl in Hno. rewrite Hno. exact IH.
Qed.

Lemma first_match_head hs e exc_type h :
  isinstance e exc_type = true ->
  first_match ((exc_type, h) :: hs) e = Some (exc_type, h).
Proof. intros He. unfold first_match. simpl. by rewrite He. Qed.
End Scan.

(** ** Response envelopes *)

Lemma success_response_lookup (kwargs : pydict) (k : string) :
  success_response kwargs !! k =
  match kwargs !! k with
  | Some v => Some v
  | None => if decide (k = "success") then Some (VBool true) else None
  end.
Proof.
  unfold success_response.
  destruct (kwargs !! k) as [v|] eqn:Hk.
  - by apply lookup_union_Some_l.
  - rewrite lookup_union_r by done. case_decide as Hs.
    + subst k. apply lookup_singleton_eq.
    + by apply lookup_singleton_ne.
Qed.

Lemma error_response_lookup (error : string) (kwargs : pydict) (k : string) :
  error_response error kwargs !! k =
  match kwargs !! k with
  | Some v => Some v
  | None =>
      if decide (k = "error") then Some (VStr error)
      else if decide (k = "success") then Some (VBool false) else None
  end.
Proof.
  unfold error_response.
  destruct (kwargs !! k) as [v|] eqn:Hk.
  - by apply lookup_union_Some_l.
  - rewrite lookup_union_r by done. case_decide as He.
    + subst k. apply lookup_insert_eq.
    + rewrite lookup_insert_ne by done. case_decide as Hs.
      * subst k. apply lookup_singleton_eq.
      * by apply lookup_singleton_ne.
Qed.

(** C6.  The constructors give exactly the mappings of the round-trip
    examples: [success_response(data="x")] is [{success: True, data: "x"}],
    [error_response("e")] is [{success: False, error: "e"}], and
    [not_found_response(kind, id)] is [error_response(kind + " not found: " + id)]
    for all arguments, so [not_found_response("User", "42")] is
    [{success: False, error: "User not found: 42"}] with that exact text. *)
Theorem envelope_round_trip :
  success_response {[ "data" := VStr "x" ]}
    = <[ "data" := VStr "x" ]> {[ "success" := VBool true ]} /\
  error_response "e" ∅
    = <[ "error" := VStr "e" ]> {[ "success" := VBool false ]} /\
  (forall resource_type resource_id,
     not_found_response resource_type resource_id
       = error_response (resource_type +:+ " not found: " +:+ resource_id) ∅) /\
  not_found_response "User" "42" = error_response "User not found: 42" ∅ /\
  not_found_response "User" "42"
    = <[ "error" := VStr "User not found: 42" ]> {[ "success" := VBool false ]}.
Proof.
  split; [vm_compute; reflexivity|].
  split; [vm_compute; reflexivity|].
  split; [intros; reflexivity|].
  split; vm_compute; reflexivity.
Qed.

(** C10.  Each constructor writes its fixed fields first and the fields
    supplied by the caller after them, so a key of the result holds the
    supplied value when there is one and the fixed value otherwise:
    [success] is [True] for [success_response] and [False] for
    [error_response] unless the caller supplies it, and a supplied
    [success] replaces it.  Every supplied field is found unchanged in the
    result; [success_response()] is [{success: True}] while
    [success_response(success=False)] is [{success: False}], and
    [error_response("e")] is [{success: False, error: "e"}] while
    [error_response("e", success=True)] is [{success: True, error: "e"}]. *)
Theorem caller_fields_take_precedence :
  (forall (kwargs : pydict) k,
     success_response kwargs !! k =
     match kwargs !! k with
     | Some v => Some v
     | None => if decide (k = "success") then Some (VBool true) else None
     end) /\
  (forall error (kwargs : pydict) k,
     error_response error kwargs !! k =
     match kwargs !! k with
     | Some v => Some v
     | None =>
         if decide (k = "error") then Some (VStr error)
         else if decide (k = "success") then Some (VBool false) else None
     end) /\
  (forall (kwargs : pydict) k v,
     kwargs !! k = Some v -> success_response kwargs !! k = Some v) /\
  (forall error (kwargs : pydict) k v,
     kwargs !! "error" = None ->
     kwargs !! k = Some v -> error_response error kwargs !! k = Some v) /\
  success_response ∅ = {[ "success" := VBool true ]} /\
  success_response {[ "success" := VBool false ]} = {[ "success" := VBool false ]} /\
  error_response "e" ∅
    = <[ "error" := VStr "e" ]> {[ "success" := VBool false ]} /\
  error_response "e" {[ "success" := VBool true ]}
    = <[ "error" := VStr "e" ]> {[ "success" := VBool true ]}.
Proof.
  split; [exact success_response_lookup|].
  split; [exact error_response_lookup|].
  split; [|split; [|repeat split; vm_compute; reflexivity]].
  - intros kwargs k v Hk. by rewrite success_response_lookup, Hk.
  - intros error kwargs k v _ Hk. by rewrite error_response_lookup, Hk.
Qed.

Lemma caller_fields_take_precedence_witness :
  success_response {[ "data" := VStr "x" ]} !! "success" = Some (VBool true) /\
  success_response {[ "success" := VBool false; "data" := VStr "x" ]} !! "success"
    = Some (VBool false) /\
  error_response "e" {[ "code" := VInt 404 ]} !! "success" = Some (VBool false) /\
  error_response "e" {[ "success" := VBool true ]} !! "success" = Some (VBool true).
Proof.
  destruct caller_fields_take_precedence as (Hs & He & Hsk & Hek & _).
  split; [|split; [|split]].
  - rewrite Hs. reflexivity.
  - apply Hsk. reflexivity.
  - rewrite He. reflexivity.
  - apply Hek; reflexivity.
Defined.

(** C7, as stated, fails: [success_response(error="boom")] is
    [{success: True, error: "boom"}], an envelope with [success=True] that
    carries an [error] key. *)
Lemma success_response_can_carry_error :
  success_response {[ "error" := VStr "boom" ]} !! "success" = Some (VBool true) /\
  success_response {[ "error" := VStr "boom" ]} !! "error" = Some (VStr "boom") /\
  envelope_ok (success_response {[ "error" := VStr "boom" ]}) = false.
Proof. repeat split. Qed.

(** C7, amended.  When the extra fields use neither of the keys [success]
    and [error], the constructors keep the envelope invariant:
    [success_response] gives [success=True] and no [error] key,
    [error_response] gives [success=False] and the message under [error]. *)
Theorem envelope_invariant_without_reserved_keys
    (error : string) (kwargs : pydict) :
  kwargs !! "success" = None ->
  kwargs !! "error" = None ->
  (success_response kwargs !! "success" = Some (VBool true) /\
   success_response kwargs !! "error" = None /\
   envelope_ok (success_response kwargs) = true) /\
  (error_response error kwargs !! "success" = Some (VBool false) /\
   error_response error kwargs !! "error" = Some (VStr error) /\
   envelope_ok (error_response error kwargs) = true).
Proof.
  intros Hs He.
  assert (H1 : success_response kwargs !! "success" = Some (VBool true))
    by (by rewrite success_response_lookup, Hs).
  assert (H2 : success_response kwargs !! "error" = None)
    by (by rewrite success_response_lookup, He).
  assert (H3 : error_response error kwargs !! "success" = Some (VBool false))
    by (by rewrite error_response_lookup, Hs).
  assert (H4 : error_response error kwargs !! "error" = Some (VStr error))
    by (by rewrite error_response_lookup, He).
  unfold envelope_ok. rewrite H1, H2, H3, H4. done.
Qed.

Lemma envelope_invariant_witness :
  envelope_ok (success_response {[ "data" := VStr "x" ]}) = true /\
  envelope_ok (error_response "e" {[ "code" := VInt 404 ]}) = true.
Proof.
  split.
  - apply (envelope_invariant_without_reserved_keys "e" {[ "data" := VStr "x" ]});
      reflexivity.
  - apply (envelope_invariant_without_reserved_keys "e" {[ "code" := VInt 404 ]});
      reflexivity.
Defined.

(** ** The tool router *)

Lemma append_empty_r (s : string) : s +:+ EmptyString = s.
Proof.
  induction s as [|a s IH]; [reflexivity|].
  change (String a (s +:+ EmptyString) = String a s). by rewrite IH.
Qed.

Section RouterFacts.
Context {W : Type}.
Implicit Types (self : Router.ToolRouter W) (h : Router.handler W).

Lemma register_lookup self name h :
  Router._handlers (Router.register name h self).1 !! name = Some h.
Proof. apply lookup_insert_eq. Qed.

Lemma register_returns_handler self name h :
  (Router.register name h self).2 = h.
Proof. reflexivity. Qed.

Lemma traced_router_lookup self name :
  Router._handlers (traced_router self) !! name =
  (fun h arguments => traced (CallHandler name) (h arguments))
    <$> Router._handlers self !! name.
Proof.
  unfold traced_router. simpl. rewrite map_lookup_imap.
  destruct (Router._handlers self !! name); reflexivity.
Qed.
End RouterFacts.

(** C2.  When [h] is the handler stored under [name], [dispatch(name, args)]
    is the call of [h] with [args] as keyword arguments: same result, same effects.  This holds in
    particular right after [register(name)(h)].  With every handler of the
    router observed, the one call that [dispatch] adds is the call of the
    handler registered under [name]. *)
Theorem dispatch_registered {W : Type} (self : Router.ToolRouter W)
    (name : string) (h : Router.handler W) (arguments : pydict) (w : W) :
  Router._handlers self !! name = Some h ->
  Router.dispatch self name arguments w = h arguments w /\
  (forall self0, Router.dispatch (Router.register name h self0).1 name arguments w
                 = h arguments w) /\
  (forall calls,
     Router.dispatch (traced_router self) name arguments (w, calls) =
     let '(r, w') := h arguments w in (r, (w', calls ++ [CallHandler name])%list)).
Proof.
  intros Hreg. split; [|split].
  - unfold Router.dispatch. by rewrite Hreg.
  - intros self0. unfold Router.dispatch. by rewrite register_lookup.
  - intros calls. unfold Router.dispatch.
    rewrite traced_router_lookup, Hreg. reflexivity.
Qed.

(** C3.  When nothing is stored under [name], [dispatch(name, args)] returns
    (it does not raise) the envelope [error_response("Unknown tool: " + name)],
    whose [success] is [False] and whose [error] contains [name]; the world
    is left as it was and, with every handler observed, no call is added. *)
Theorem dispatch_unknown {W : Type} (self : Router.ToolRouter W)
    (name : string) (arguments : pydict) (w : W) :
  Router._handlers self !! name = None ->
  exists env,
    Router.dispatch self name arguments w = (Ok env, w) /\
    env = error_response ("Unknown tool: " +:+ name) ∅ /\
    env !! "success" = Some (VBool false) /\
    env !! "error" = Some (VStr ("Unknown tool: " +:+ name)) /\
    contains ("Unknown tool: " +:+ name) name /\
    (forall calls,
       Router.dispatch (traced_router self) name arguments (w, calls)
       = (Ok env, (w, calls))).
Proof.
  intros Hnone. eexists. split; [|split; [reflexivity|]].
  - unfold Router.dispatch. rewrite Hnone. reflexivity.
  - split; [by rewrite error_response_lookup|].
    split; [by rewrite error_response_lookup|].
    split.
    + exists "Unknown tool: ", EmptyString. by rewrite append_empty_r.
    + intros calls. unfold Router.dispatch.
      rewrite traced_router_lookup, Hnone. reflexivity.
Qed.

Lemma dispatch_registered_witness :
  Router.dispatch Bench.echo_router "echo" {[ "x" := VInt 1 ]} []
  = (Ok (success_response {[ "x" := VInt 1 ]}), ["echo"]).
Proof.
  apply (dispatch_registered Bench.echo_router "echo" Bench.echo_handler
           {[ "x" := VInt 1 ]} []).
  reflexivity.
Defined.

Lemma dispatch_unknown_witness :
  exists env,
    Router.dispatch Bench.echo_router "missing" ∅ [] = (Ok env, []) /\
    env !! "error" = Some (VStr "Unknown tool: missing").
Proof.
  destruct (dispatch_unknown Bench.echo_router "missing" ∅ [] eq_refl)
    as (env & Hrun & _ & _ & Herr & _).
  exists env. split; [exact Hrun | exact Herr].
Defined.

(** ** The protected call handler *)

Section HandleToolCallBasics.
Context {W : Type}.
Variable logger_exception : string -> exc -> W -> W.
Variable json_dumps : option nat -> bool -> pyval -> result string.

Local Abbreviation call_tool := (Server._handle_tool_call logger_exception json_dumps).
Local Abbreviation call_tool_traced :=
  (Server._handle_tool_call (fun msg e => on_world (logger_exception msg e)) json_dumps).

Implicit Types (self : @Server.MCPServerBase W) (e : exc) (w : W).

Lemma default_handler_unfold (name : string) e w :
  Server.default_handler logger_exception json_dumps e name w =
  let w' := logger_exception ("Unexpected error in tool " +:+ name) e w in
  match str e with
  | Ok message =>
      match json_dumps None false (VDict (Server.internal_error message)) with
      | Ok s => (Ok [ {| Server.type := "text"; Server.text := s |} ], w')
      | Raise e' => (Raise e', w')
      end
  | Raise e' => (Raise e', w')
  end.
Proof.
  unfold Server.default_handler, bind, effect, lift_result, ret. simpl.
  destruct (str e) as [message|e']; [|reflexivity].
  destruct (json_dumps None false _); reflexivity.
Qed.

(** The whole [except] side of the handler, once [handle_tool] raised. *)
Lemma handle_tool_call_raised self name arguments w e w1 :
  Server.handle_tool self name arguments w = (Raise e, w1) ->
  call_tool self name arguments w =
  if isinstance e Builtins.Exception then
    match first_match (Server._error_handlers self) e with
    | Some entry => entry.2 e name w1
    | None => Server.default_handler logger_exception json_dumps e name w1
    end
  else (Raise e, w1).
Proof.
  intros Hraise. unfold Server._handle_tool_call, try_except_Exception.
  unfold bind at 1. rewrite Hraise.
  destruct (isinstance e Builtins.Exception); [|reflexivity].
  rewrite scan_first_match.
  destruct (first_match _ e) as [entry|]; reflexivity.
Qed.

Lemma traced_first_match (hs : list (pyclass * Server.recovery W)) e :
  exists i,
    first_match (traced_error_handlers hs) e =
    (fun entry : pyclass * Server.recovery W =>
       (entry.1, fun e name => traced (CallErrorHandler i) (entry.2 e name)))
      <$> first_match hs e.
Proof.
  unfold traced_error_handlers, first_match.
  generalize 0 as n.
  assert (Hgen : forall (f : nat -> nat) ,
    exists i,
      List.find (fun entry => isinstance e entry.1)
        (imap (fun i '(exc_type, h) =>
                 (exc_type, fun e name => traced (CallErrorHandler (f i)) (h e name))) hs)
      = (fun entry : pyclass * Server.recovery W =>
           (entry.1, fun e name => traced (CallErrorHandler i) (entry.2 e name)))
          <$> List.find (fun entry => isinstance e entry.1) hs).
  { induction hs as [|[exc_type h] rest IH]; intros f; simpl.
    - by exists 0.
    - destruct (isinstance e exc_type).
      + by exists (f 0).
      + apply (IH (f ∘ S)). }
  intros _. apply (Hgen id).
Qed.

End HandleToolCallBasics.

Section HandleToolCall.
Context {W : Type}.
Variable logger_exception : string -> exc -> W -> W.
Variable json_dumps : option nat -> bool -> pyval -> result string.

Local Abbreviation call_tool := (Server._handle_tool_call logger_exception json_dumps).
Local Abbreviation call_tool_traced :=
  (Server._handle_tool_call (fun msg e => on_world (logger_exception msg e)) json_dumps).

Implicit Types (self : @Server.MCPServerBase W) (e : exc) (w : W).

Lemma traced_no_match (hs : list (pyclass * Server.recovery W)) e :
  first_match hs e = None -> first_match (traced_error_handlers hs) e = None.
Proof.
  intros Hnone. destruct (traced_first_match hs e) as [i Hi].
  by rewrite Hi, Hnone.
Qed.

Lemma traced_handle_tool_raised self name arguments w e w1 calls :
  Server.handle_tool self name arguments w = (Raise e, w1) ->
  Server.handle_tool (traced_server self) name arguments (w, calls)
  = (Raise e, (w1, calls ++ [CallHandleTool])%list).
Proof. intros Hraise. simpl. unfold traced. simpl. by rewrite Hraise. Qed.

Lemma internal_error_lookup (message : string) :
  Server.internal_error message !! "success" = Some (VBool false) /\
  Server.internal_error message !! "error"
    = Some (VStr ("Internal error: " +:+ message)).
Proof. split; reflexivity. Qed.

Lemma internal_error_is_error_response (message : string) :
  Server.internal_error message = error_response ("Internal error: " +:+ message) ∅.
Proof. unfold error_response. by rewrite (left_id_L ∅ _). Qed.

Lemma internal_error_scalar (message : string) :
  map_Forall (fun _ v => scalar v = true) (Server.internal_error message).
Proof.
  intros k v. unfold Server.internal_error.
  rewrite lookup_insert. case_decide; [by intros [= <-]|].
  rewrite lookup_singleton. case_decide; [by intros [= <-] | done].
Qed.

(** [json.dumps] writes a dict whose values are [None], booleans,
    integers or strings; it has nothing to reject there. *)
Hypothesis json_dumps_flat :
  forall indent default_str (d : pydict),
    map_Forall (fun _ v => scalar v = true) d ->
    exists s, json_dumps indent default_str (VDict d) = Ok s.

(** What the recovery function of the first matching entry raises comes
    out of [_handle_tool_call]: nothing stands around the call. *)
Lemma recovery_failure_escapes self name arguments w e w1 entry e' w2 :
  Server.handle_tool self name arguments w = (Raise e, w1) ->
  isinstance e Builtins.Exception = true ->
  first_match (Server._error_handlers self) e = Some entry ->
  entry.2 e name w1 = (Raise e', w2) ->
  call_tool self name arguments w = (Raise e', w2).
Proof.
  intros Hraise Hcaught Hentry Hrec.
  by rewrite (handle_tool_call_raised _ _ _ _ _ _ _ _ Hraise), Hcaught, Hentry.
Qed.

(** What [__str__] raises in the default branch comes out of
    [_handle_tool_call] as well, after the failure was logged. *)
Lemma unprintable_failure_escapes self name arguments w e w1 e' :
  Server.handle_tool self name arguments w = (Raise e, w1) ->
  isinstance e Builtins.Exception = true ->
  first_match (Server._error_handlers self) e = None ->
  str e = Raise e' ->
  call_tool self name arguments w
    = (Raise e', logger_exception ("Unexpected error in tool " +:+ name) e w1).
Proof.
  intros Hraise Hcaught Hnone Hstr.
  rewrite (handle_tool_call_raised _ _ _ _ _ _ _ _ Hraise), Hcaught, Hnone.
  by rewrite default_handler_unfold, Hstr.
Qed.

(** C1, amended.  Let [handle_tool] raise [e].  If [e] is an instance of
    [Exception], the recovery function of the first matching entry, if
    there is one, returns, and [str(e)] gives a text if there is none, then
    [_handle_tool_call] returns a response and raises nothing: what that
    recovery function returned, or the default response when no entry
    matches.  An [e] that is not an instance of [Exception] is not caught
    and comes out of [_handle_tool_call]. *)
Theorem handle_tool_call_protected self name arguments w e w1 :
  Server.handle_tool self name arguments w = (Raise e, w1) ->
  (isinstance e Builtins.Exception = true ->
   (forall entry, first_match (Server._error_handlers self) e = Some entry ->
                  exists r w2, entry.2 e name w1 = (Ok r, w2)) ->
   (first_match (Server._error_handlers self) e = None ->
    exists message, str e = Ok message) ->
   exists r w2,
     call_tool self name arguments w = (Ok r, w2) /\
     match first_match (Server._error_handlers self) e with
     | Some entry => entry.2 e name w1 = (Ok r, w2)
     | None =>
         Server.default_handler logger_exception json_dumps e name w1 = (Ok r, w2)
     end) /\
  (isinstance e Builtins.Exception = false ->
   call_tool self name arguments w = (Raise e, w1)).
Proof.
  intros Hraise. rewrite (handle_tool_call_raised _ _ _ _ _ _ _ _ Hraise).
  split.
  - intros -> Hrec Hstr. destruct (first_match _ e) as [entry|].
    + destruct (Hrec entry eq_refl) as (r & w2 & Hr). eauto.
    + destruct (Hstr eq_refl) as [message Hm].
      rewrite default_handler_unfold, Hm.
      destruct (json_dumps_flat None false _ (internal_error_scalar message)) as [s ->].
      simpl. eauto.
  - intros ->. reflexivity.
Qed.

(** C4.  With the chain [[(Specific, H1), (Base, H2)]], [Specific] below
    [Base] and below [Exception], a raised instance of [Specific] is
    answered by [H1]: [_handle_tool_call] is the call [H1(e, name)] made
    in the world [handle_tool] left.  The entry of [H2] matches [e] as
    well, yet with both functions observed the calls added are those of
    [handle_tool] and of entry 0 only. *)
Theorem first_matching_entry_wins self name arguments w e w1
    (Specific Base : pyclass) (H1 H2 : Server.recovery W) :
  Server._error_handlers self = [ (Specific, H1); (Base, H2) ] ->
  issubclass Specific Base = true ->
  issubclass Specific Builtins.Exception = true ->
  Server.handle_tool self name arguments w = (Raise e, w1) ->
  isinstance e Specific = true ->
  call_tool self name arguments w = H1 e name w1 /\
  isinstance e Base = true /\
  (forall calls,
     call_tool_traced (traced_server self) name arguments (w, calls) =
     let '(r, w2) := H1 e name w1 in
     (r, (w2, calls ++ [CallHandleTool; CallErrorHandler 0])%list)).
Proof.
  intros Hchain Hsub Hexc Hraise Hinst.
  assert (Hcaught : isinstance e Builtins.Exception = true)
    by (by apply (isinstance_up e Specific)).
  split; [|split].
  - rewrite (handle_tool_call_raised _ _ _ _ _ _ _ _ Hraise), Hcaught, Hchain.
    by rewrite (first_match_head _ _ _ _ Hinst).
  - by apply (isinstance_up e Specific).
  - intros calls.
    rewrite (handle_tool_call_raised _ _ _ _ _ _ _ _
               (traced_handle_tool_raised _ _ _ _ _ _ calls Hraise)).
    rewrite Hcaught. simpl. rewrite Hchain. simpl.
    rewrite Hinst. simpl. unfold traced. simpl.
    destruct (H1 e name w1) as [r w2]. by rewrite <- (assoc_L (++)).
Qed.

(** C5, amended.  Let [handle_tool] raise an instance [e] of [Exception]
    that no entry of the chain matches and for which [str(e)] gives the text
    [message].  Then [_handle_tool_call] logs
    ["Unexpected error in tool <name>"] with [e] and returns one text
    content holding the serialised dict [{success: False, error:
    "Internal error: <message>"}], which is
    [error_response("Internal error: <message>")]; no recovery function is
    called. *)
Theorem unmatched_failure_default self name arguments w e w1 (message : string) :
  Server.handle_tool self name arguments w = (Raise e, w1) ->
  isinstance e Builtins.Exception = true ->
  Forall (fun entry => isinstance e entry.1 = false) (Server._error_handlers self) ->
  str e = Ok message ->
  exists s,
    json_dumps None false (VDict (Server.internal_error message)) = Ok s /\
    call_tool self name arguments w =
      (Ok [ {| Server.type := "text"; Server.text := s |} ],
       logger_exception ("Unexpected error in tool " +:+ name) e w1) /\
    Server.internal_error message !! "success" = Some (VBool false) /\
    Server.internal_error message !! "error"
      = Some (VStr ("Internal error: " +:+ message)) /\
    Server.internal_error message
      = error_response ("Internal error: " +:+ message) ∅ /\
    contains ("Internal error: " +:+ message) "Internal error" /\
    (forall calls,
       call_tool_traced (traced_server self) name arguments (w, calls) =
         (Ok [ {| Server.type := "text"; Server.text := s |} ],
          (logger_exception ("Unexpected error in tool " +:+ name) e w1,
           calls ++ [CallHandleTool])%list)).
Proof.
  intros Hraise Hcaught Hnone Hstr. apply first_match_none in Hnone.
  destruct (json_dumps_flat None false _ (internal_error_scalar message)) as [s Hs].
  exists s. split; [exact Hs|]. split; [|split; [|split; [|split; [|split]]]].
  - rewrite (handle_tool_call_raised _ _ _ _ _ _ _ _ Hraise), Hcaught, Hnone.
    by rewrite default_handler_unfold, Hstr, Hs.
  - reflexivity.
  - reflexivity.
  - apply internal_error_is_error_response.
  - exists EmptyString, (": " +:+ message). reflexivity.
  - intros calls.
    rewrite (handle_tool_call_raised _ _ _ _ _ _ _ _
               (traced_handle_tool_raised _ _ _ _ _ _ calls Hraise)).
    rewrite Hcaught. simpl. rewrite (traced_no_match _ _ Hnone).
    by rewrite default_handler_unfold, Hstr, Hs.
Qed.
End HandleToolCall.

Lemma sample_dumps_flat :
  forall indent default_str (d : pydict),
    map_Forall (fun _ v => scalar v = true) d ->
    exists s, Bench.sample_dumps indent default_str (VDict d) = Ok s.
Proof. intros indent default_str d _. eexists. reflexivity. Qed.

(** C1, as stated, fails: with [error_handlers=[(ValueError, h)]] where [h]
    raises [RuntimeError("recovery failed")], a [handle_tool] that raises
    [ValueError("bad input")] makes [_handle_tool_call] raise the
    [RuntimeError]. *)
Lemma recovery_failure_propagates :
  Server.handle_tool Bench.failing_recovery_server "tool" ∅ []
    = (Raise (Exc Builtins.ValueError "bad input"), []) /\
  first_match (Server._error_handlers Bench.failing_recovery_server)
              (Exc Builtins.ValueError "bad input")
    = Some (Builtins.ValueError, Bench.failing_recovery) /\
  Bench.call_tool Bench.failing_recovery_server "tool" []
    = (Raise (Exc Builtins.RuntimeError "recovery failed"), []).
Proof. split; [|split]; vm_compute; reflexivity. Qed.

Lemma handle_tool_call_protected_witness :
  (exists r w2, Bench.call_tool Bench.ordered_server "tool" [] = (Ok r, w2)) /\
  (exists r w2, Bench.call_tool Bench.unmatched_server "tool" [] = (Ok r, w2)).
Proof.
  split.
  - destruct (proj1 (handle_tool_call_protected Bench.logger_exception
                       Bench.sample_dumps sample_dumps_flat Bench.ordered_server
                       "tool" ∅ [] (Exc Bench.SpecificError "oops") [] eq_refl))
      as (r & w2 & Hcall & _).
    + reflexivity.
    + intros entry Hentry. vm_compute in Hentry. injection Hentry as <-.
      eexists _, _. reflexivity.
    + intros Hnone. vm_compute in Hnone. discriminate Hnone.
    + exists r, w2. exact Hcall.
  - destruct (proj1 (handle_tool_call_protected Bench.logger_exception
                       Bench.sample_dumps sample_dumps_flat Bench.unmatched_server
                       "tool" ∅ [] (Exc Bench.UnhandledError "nope") [] eq_refl))
      as (r & w2 & Hcall & _).
    + reflexivity.
    + intros entry Hentry. vm_compute in Hentry. discriminate Hentry.
    + intros _. by eexists.
    + exists r, w2. exact Hcall.
Defined.

Lemma first_matching_entry_wins_witness :
  Bench.call_tool Bench.ordered_server "tool" []
  = Bench.reply "specific" (Exc Bench.SpecificError "oops") "tool" [].
Proof.
  apply (first_matching_entry_wins Bench.logger_exception Bench.sample_dumps
           Bench.ordered_server "tool" ∅ [] (Exc Bench.SpecificError "oops") []
           Bench.SpecificError Bench.BaseError
           (Bench.reply "specific") (Bench.reply "base"));
    reflexivity.
Defined.

(** C5, as stated, fails: a [KeyboardInterrupt] raised by [handle_tool]
    matches no entry of the chain, yet it is not an instance of [Exception]:
    it leaves [_handle_tool_call], nothing is logged and no response is
    returned. *)
Lemma interrupt_skips_default_handler :
  Server.handle_tool Bench.interrupted_server "tool" ∅ []
    = (Raise (Exc Builtins.KeyboardInterrupt EmptyString), []) /\
  Forall (fun entry => isinstance (Exc Builtins.KeyboardInterrupt EmptyString) entry.1 = false)
         (Server._error_handlers Bench.interrupted_server) /\
  Bench.call_tool Bench.interrupted_server "tool" []
    = (Raise (Exc Builtins.KeyboardInterrupt EmptyString), []).
Proof.
  split; [reflexivity|]. split; [|reflexivity].
  repeat constructor.
Qed.

Lemma unmatched_failure_default_witness :
  exists s,
    Bench.call_tool Bench.unmatched_server "tool" [] =
    (Ok [ {| Server.type := "text"; Server.text := s |} ],
     ["ERROR Unexpected error in tool tool: nope"]).
Proof.
  destruct (unmatched_failure_default Bench.logger_exception Bench.sample_dumps
              sample_dumps_flat Bench.unmatched_server "tool" ∅ []
              (Exc Bench.UnhandledError "nope") [] "nope" eq_refl eq_refl)
    as (s & _ & Hcall & _).
  - repeat constructor.
  - reflexivity.
  - exists s. exact Hcall.
Defined.

(** ** The run operation *)

Section RunBasics.
Context {W : Type}.
Variable logger_info : string -> W -> W.
Variable logger_exception : string -> exc -> W -> W.
Variable argparse_parse_args : Server.ArgumentParser -> M W Server.Namespace.
Variable asyncio_run_main : M W unit.

(** Past the health-check test, [run()] is the startup phase followed by
    the serve loop, in the world where the start was logged. *)
Lemma run_serve_mode (self : @Server.MCPServerBase W) w args w1 :
  Server.parse_args argparse_parse_args self w = (Ok args, w1) ->
  Server._health_check self = None \/
    Server.getattr args "health_check" false = false ->
  Server.run logger_info logger_exception argparse_parse_args asyncio_run_main self w =
  ((match Server._startup_hook self with
    | Some startup_hook =>
        if negb (Server.getattr args "skip_startup_hook" false)
        then try_except_Exception
               (startup_hook ;; effect (logger_info "Startup hook completed"))
               (fun e => effect (logger_exception "Startup hook failed" e) ;; raise e)
        else ret tt
    | None => ret tt
    end) ;;
   asyncio_run_main)
    (logger_info (Server.server_name self +:+ " MCP server starting...") w1).
Proof.
  intros Hparse Hmode. unfold Server.run. unfold bind at 1. rewrite Hparse.
  unfold bind at 1.
  assert (Hskip :
    (match Server._health_check self with
     | Some health_check =>
         if Server.getattr args "health_check" false
         then (do code <- health_check; Server.sys_exit code)
         else ret tt
     | None => ret tt
     end) w1 = (Ok tt, w1)).
  { destruct Hmode as [-> | ->]; [reflexivity|].
    by destruct (Server._health_check self). }
  rewrite Hskip. reflexivity.
Qed.
End RunBasics.

Section Run.
Context {W : Type}.
Variable logger_info : string -> W -> W.
Variable logger_exception : string -> exc -> W -> W.
Variable argparse_parse_args : Server.ArgumentParser -> M W Server.Namespace.
Variable asyncio_run_main : M W unit.

Local Abbreviation parse_args := (Server.parse_args argparse_parse_args).
Local Abbreviation run :=
  (Server.run logger_info logger_exception argparse_parse_args asyncio_run_main).
Local Abbreviation run_traced :=
  (Server.run (fun msg => on_world (logger_info msg))
              (fun msg e => on_world (logger_exception msg e))
              (fun parser => untraced (argparse_parse_args parser))
              (traced CallServe asyncio_run_main)).

Implicit Types (self : @Server.MCPServerBase W) (e : exc) (w : W).

Lemma parse_args_traced self w calls :
  Server.parse_args (fun parser => untraced (argparse_parse_args parser))
                    (traced_server self) (w, calls)
  = untraced (parse_args self) (w, calls).
Proof.
  unfold Server.parse_args. simpl.
  destruct (Server._health_check self), (Server._startup_hook self); reflexivity.
Qed.


Lemma traced_serve_mode self w args w1 calls :
  parse_args self w = (Ok args, w1) ->
  Server._health_check self = None \/
    Server.getattr args "health_check" false = false ->
  Server.parse_args (fun parser => untraced (argparse_parse_args parser))
                    (traced_server self) (w, calls) = (Ok args, (w1, calls)) /\
  (Server._health_check (traced_server self) = None \/
     Server.getattr args "health_check" false = false).
Proof.
  intros Hparse Hmode. split.
  - rewrite parse_args_traced. unfold untraced. simpl. by rewrite Hparse.
  - destruct Hmode as [Hnone | Hflag]; [left | by right].
    simpl. by rewrite Hnone.
Qed.

(** C9, amended.  Let a startup hook be supplied and [run()] be past the
    health-check test.  With the skip flag unset and a hook that returns,
    [run()] is the serve loop started in the world the hook left (plus the
    log line), and the calls observed are the hook, once, then the serve
    loop.  With the skip flag set, the serve loop starts without the hook
    being called.  With the skip flag unset and a hook that raises [e],
    [run()] raises [e] and the serve loop is not called; the failure is
    logged when [e] is an instance of [Exception]. *)
Theorem startup_hook_before_serving self w args w1 (startup_hook : M W unit) :
  Server._startup_hook self = Some startup_hook ->
  parse_args self w = (Ok args, w1) ->
  Server._health_check self = None \/
    Server.getattr args "health_check" false = false ->
  let w2 := logger_info (Server.server_name self +:+ " MCP server starting...") w1 in
  (Server.getattr args "skip_startup_hook" false = false ->
   forall u w3, startup_hook w2 = (Ok u, w3) ->
     run self w = asyncio_run_main (logger_info "Startup hook completed" w3) /\
     forall calls,
       run_traced (traced_server self) (w, calls) =
       let '(r, w4) := asyncio_run_main (logger_info "Startup hook completed" w3) in
       (r, (w4, calls ++ [CallStartupHook; CallServe])%list)) /\
  (Server.getattr args "skip_startup_hook" false = true ->
     run self w = asyncio_run_main w2 /\
     forall calls,
       run_traced (traced_server self) (w, calls) =
       let '(r, w4) := asyncio_run_main w2 in (r, (w4, calls ++ [CallServe])%list)) /\
  (Server.getattr args "skip_startup_hook" false = false ->
   forall e w3, startup_hook w2 = (Raise e, w3) ->
     let w4 := if isinstance e Builtins.Exception
               then logger_exception "Startup hook failed" e w3 else w3 in
     run self w = (Raise e, w4) /\
     forall calls,
       run_traced (traced_server self) (w, calls)
       = (Raise e, (w4, calls ++ [CallStartupHook])%list)).
Proof.
  intros Hhook Hparse Hmode w2.
  pose proof (run_serve_mode logger_info logger_exception argparse_parse_args
                asyncio_run_main self w args w1 Hparse Hmode) as Hrun.
  rewrite Hhook in Hrun. fold w2 in Hrun.
  split; [|split].
  - intros Hskip u w3 Hret. split.
    + rewrite Hrun, Hskip. simpl.
      unfold bind at 1, try_except_Exception. unfold bind at 1.
      rewrite Hret. reflexivity.
    + intros calls.
      destruct (traced_serve_mode self w args w1 calls Hparse Hmode) as [Hp Hm].
      rewrite (run_serve_mode _ _ _ _ _ _ _ _ Hp Hm). simpl. rewrite Hhook, Hskip. simpl.
      unfold bind at 1, try_except_Exception. unfold bind at 1.
      unfold traced at 1. simpl. fold w2. rewrite Hret. simpl.
      unfold traced. simpl.
      destruct (asyncio_run_main _) as [r w4].
      by rewrite <- (assoc_L (++)).
  - intros Hskip. split.
    + rewrite Hrun, Hskip. reflexivity.
    + intros calls.
      destruct (traced_serve_mode self w args w1 calls Hparse Hmode) as [Hp Hm].
      rewrite (run_serve_mode _ _ _ _ _ _ _ _ Hp Hm). simpl. rewrite Hhook, Hskip. simpl.
      unfold bind, ret, traced. simpl. fold w2.
      by destruct (asyncio_run_main w2) as [r w4].
  - intros Hskip e w3 Hraise w4. split.
    + rewrite Hrun, Hskip. simpl.
      unfold bind at 1, try_except_Exception. unfold bind at 1.
      rewrite Hraise. subst w4. by destruct (isinstance e Builtins.Exception).
    + intros calls.
      destruct (traced_serve_mode self w args w1 calls Hparse Hmode) as [Hp Hm].
      rewrite (run_serve_mode _ _ _ _ _ _ _ _ Hp Hm). simpl. rewrite Hhook, Hskip. simpl.
      unfold bind at 1, try_except_Exception. unfold bind at 1.
      unfold traced at 1. simpl. fold w2. rewrite Hraise. subst w4.
      by destruct (isinstance e Builtins.Exception).
Qed.
End Run.



(** C9, as stated, fails: a startup hook that leaves through [sys.exit(3)]
    raises, and [run()] raises what it raised, but nothing is logged about
    it: the only line written is the one that announces the start. *)
Lemma exiting_hook_not_logged :
  Bench.exiting_hook ["INFO test MCP server starting..."]
    = (Raise (SysExit 3), ["INFO test MCP server starting..."]) /\
  Bench.run_with [] (Bench.hook_server Bench.exiting_hook) []
    = (Raise (SysExit 3), ["INFO test MCP server starting..."]).
Proof. split; reflexivity. Qed.

Lemma startup_hook_before_serving_witness :
  Bench.run_with [] (Bench.hook_server Bench.marking_hook) []
    = Bench.serve ["INFO test MCP server starting..."; "hook ran";
                   "INFO Startup hook completed"] /\
  Bench.run_with ["--skip-startup-hook"] (Bench.hook_server Bench.marking_hook) []
    = Bench.serve ["INFO test MCP server starting..."] /\
  Bench.run_with [] (Bench.hook_server Bench.failing_hook) []
    = (Raise (Exc Builtins.RuntimeError "DB connection failed"),
       ["INFO test MCP server starting...";
        "ERROR Startup hook failed: DB connection failed"]).
Proof.
  split; [|split].
  - destruct (startup_hook_before_serving Bench.logger_info Bench.logger_exception
                (Bench.parse_argv []) Bench.serve
                (Bench.hook_server Bench.marking_hook) []
                (list_to_map [("skip_startup_hook", false)]) []
                Bench.marking_hook eq_refl eq_refl (or_introl eq_refl))
      as (Hrun & _ & _).
    apply (Hrun eq_refl tt _ eq_refl).
  - destruct (startup_hook_before_serving Bench.logger_info Bench.logger_exception
                (Bench.parse_argv ["--skip-startup-hook"]) Bench.serve
                (Bench.hook_server Bench.marking_hook) []
                (list_to_map [("skip_startup_hook", true)]) []
                Bench.marking_hook eq_refl eq_refl (or_introl eq_refl))
      as (_ & Hskip & _).
    apply (Hskip eq_refl).
  - destruct (startup_hook_before_serving Bench.logger_info Bench.logger_exception
                (Bench.parse_argv []) Bench.serve
                (Bench.hook_server Bench.failing_hook) []
                (list_to_map [("skip_startup_hook", false)]) []
                Bench.failing_hook eq_refl eq_refl (or_introl eq_refl))
      as (_ & _ & Hfail).
    apply (Hfail eq_refl (Exc Builtins.RuntimeError "DB connection failed") _ eq_refl).
Defined.

(** * Further properties *)

(** ** The tool router: registration *)

Section RouterRegistration.
Context {W : Type}.
Implicit Types (self : Router.ToolRouter W) (h : Router.handler W).

(** X1.  Registering a name twice keeps the second handler only: the router
    is the one that the second registration alone would give, and
    [dispatch] calls the second handler. *)
Theorem register_last_write_wins self name h1 h2 (arguments : pydict) (w : W) :
  (Router.register name h2 (Router.register name h1 self).1).1
    = (Router.register name h2 self).1 /\
  Router.dispatch (Router.register name h2 (Router.register name h1 self).1).1
                  name arguments w
    = h2 arguments w.
Proof.
  split.
  - unfold Router.register. simpl. f_equal. apply insert_insert_eq.
  - unfold Router.dispatch, Router.register. simpl.
    by rewrite lookup_insert_eq.
Qed.

(** X2.  Registering under one name changes nothing for any other name:
    [dispatch] and [has_tool] answer for it as before. *)
Theorem register_leaves_others self name other h (arguments : pydict) (w : W) :
  name <> other ->
  Router.dispatch (Router.register name h self).1 other arguments w
    = Router.dispatch self other arguments w /\
  Router.has_tool (Router.register name h self).1 other
    = Router.has_tool self other.
Proof.
  intros Hne. unfold Router.dispatch, Router.has_tool, Router.register. simpl.
  by rewrite lookup_insert_ne.
Qed.

(** X3.  [has_tool] tells what [dispatch] will do: where it answers [True]
    a handler is stored and [dispatch] is the call of that handler, where
    it answers [False] every [dispatch] is the unknown-tool envelope with
    the world untouched. *)
Theorem has_tool_decides_dispatch self name :
  if Router.has_tool self name
  then exists h, Router._handlers self !! name = Some h /\
                 forall arguments w,
                   Router.dispatch self name arguments w = h arguments w
  else forall arguments w,
         Router.dispatch self name arguments w
         = (Ok (error_response ("Unknown tool: " +:+ name) ∅), w).
Proof.
  unfold Router.has_tool, Router.dispatch. case_bool_decide as Hs.
  - destruct Hs as [h Hh]. exists h. split; [exact Hh|].
    intros arguments w. by rewrite Hh.
  - intros arguments w.
    destruct (Router._handlers self !! name) as [h|] eqn:Hh; [|reflexivity].
    exfalso. apply Hs. by exists h.
Qed.

(** X4.  A new router has no tool; after a registration the registered name
    is a tool and the other names are tools exactly when they were. *)
Theorem has_tool_register self name h other :
  Router.has_tool (Router.new (W := W)) other = false /\
  Router.has_tool (Router.register name h self).1 other
    = bool_decide (other = name) || Router.has_tool self other.
Proof.
  split; [reflexivity|].
  unfold Router.has_tool, Router.register. simpl.
  destruct (decide (other = name)) as [->|Hne].
  - rewrite lookup_insert_eq, bool_decide_eq_true_2 by done.
    by rewrite bool_decide_eq_true_2 by eauto.
  - rewrite lookup_insert_ne by done.
    by rewrite (bool_decide_eq_false_2 (other = name)) by done.
Qed.
End RouterRegistration.

Lemma register_leaves_others_witness :
  Router.dispatch (Router.register "boom" Bench.raising_handler Bench.echo_router).1
                  "echo" ∅ []
  = Router.dispatch Bench.echo_router "echo" ∅ [].
Proof.
  apply (register_leaves_others Bench.echo_router "boom" "echo"
           Bench.raising_handler ∅ []).
  discriminate.
Defined.

(** ** The tool router: names in registration order *)

Section OrderedRouter.
Context {W : Type}.
Implicit Types (self : Ordered.ToolRouter W) (h : Router.handler W)
  (d : list (string * Router.handler W)).

Lemma setitem_keys name h d :
  (Ordered.setitem name h d).*1 =
  if bool_decide (name ∈ d.*1) then d.*1 else (d.*1 ++ [name])%list.
Proof.
  induction d as [|[k v] rest IH]; [reflexivity|].
  cbn [Ordered.setitem]. destruct (decide (k = name)) as [->|Hk].
  - rewrite !fmap_cons. cbn [fst].
    rewrite bool_decide_eq_true_2; [reflexivity | by left].
  - rewrite !fmap_cons, IH. cbn [fst]. case_bool_decide as Hin.
    + rewrite bool_decide_eq_true_2; [reflexivity | by right].
    + rewrite bool_decide_eq_false_2; [reflexivity|].
      intros Hc. apply elem_of_cons in Hc as [Hc | Hc]; [by subst | done].
Qed.

Lemma get_list_to_map name d :
  Ordered.get name d = (list_to_map d : gmap string (Router.handler W)) !! name.
Proof.
  induction d as [|[k v] rest IH]; [by rewrite list_to_map_nil, lookup_empty|].
  cbn [Ordered.get]. rewrite list_to_map_cons. cbn [fst snd].
  destruct (decide (k = name)) as [->|Hk].
  - by rewrite lookup_insert_eq.
  - by rewrite lookup_insert_ne.
Qed.

Lemma list_to_map_setitem name h d :
  (list_to_map (Ordered.setitem name h d) : gmap string (Router.handler W))
  = <[ name := h ]> (list_to_map d).
Proof.
  induction d as [|[k v] rest IH]; [reflexivity|].
  cbn [Ordered.setitem]. destruct (decide (k = name)) as [->|Hk].
  - rewrite !list_to_map_cons. cbn [fst snd]. by rewrite insert_insert_eq.
  - rewrite !list_to_map_cons, IH. cbn [fst snd]. by apply insert_insert_ne.
Qed.

(** X5.  Forgetting the order of the dict gives the router of [Router],
    operation by operation: a new router is a new router, [register]
    commutes with forgetting, and [dispatch] and [has_tool] give the same
    answers on both sides. *)
Theorem ordered_router_refines self name h (arguments : pydict) :
  Ordered.abstract (Ordered.new (W := W)) = Router.new /\
  Ordered.abstract (Ordered.register name h self).1
    = (Router.register name h (Ordered.abstract self)).1 /\
  (Ordered.register name h self).2 = h /\
  Ordered.dispatch self name arguments
    = Router.dispatch (Ordered.abstract self) name arguments /\
  Ordered.has_tool self name = Router.has_tool (Ordered.abstract self) name.
Proof.
  split; [reflexivity|]. split; [|split; [reflexivity|split]].
  - unfold Ordered.abstract, Ordered.register, Router.register. simpl.
    f_equal. apply list_to_map_setitem.
  - unfold Ordered.dispatch, Router.dispatch, Ordered.abstract. simpl.
    by rewrite get_list_to_map.
  - unfold Ordered.has_tool, Router.has_tool, Ordered.abstract. simpl.
    apply bool_decide_ext. rewrite <- elem_of_dom, dom_list_to_map_L.
    by rewrite elem_of_list_to_set.
Qed.

(** X6.  Registering a name that is already a tool leaves [tool_names] as
    it is (the name keeps its place); registering a new name puts it at the
    end. *)
Theorem tool_names_register self name h :
  Ordered.tool_names (Ordered.register name h self).1 =
  if Ordered.has_tool self name
  then Ordered.tool_names self
  else (Ordered.tool_names self ++ [name])%list.
Proof. apply setitem_keys. Qed.

Lemma tool_names_register_elem self name h other :
  other ∈ Ordered.tool_names (Ordered.register name h self).1 <->
  other = name \/ other ∈ Ordered.tool_names self.
Proof.
  unfold Ordered.tool_names, Ordered.register. cbn [fst Ordered._handlers].
  rewrite setitem_keys. case_bool_decide as Hin.
  - split; [by right|]. intros [-> | Ho]; done.
  - rewrite elem_of_app, list_elem_of_singleton. tauto.
Qed.

Lemma tool_names_register_NoDup self name h :
  NoDup (Ordered.tool_names self) ->
  NoDup (Ordered.tool_names (Ordered.register name h self).1).
Proof.
  intros Hnd. unfold Ordered.tool_names, Ordered.register in *.
  cbn [fst Ordered._handlers]. rewrite setitem_keys.
  case_bool_decide as Hin; [exact Hnd|].
  apply NoDup_app. split; [exact Hnd|]. split; [|apply NoDup_singleton].
  intros x Hx Hs. apply list_elem_of_singleton in Hs. by subst.
Qed.

Lemma foldl_register_names (regs : list (string * Router.handler W)) self :
  NoDup (Ordered.tool_names self) ->
  let final := foldl (fun self reg => (Ordered.register reg.1 reg.2 self).1) self regs in
  NoDup (Ordered.tool_names final) /\
  forall name, name ∈ Ordered.tool_names final <->
               name ∈ regs.*1 \/ name ∈ Ordered.tool_names self.
Proof.
  revert self. induction regs as [|[n f] regs IH]; intros self Hnd; simpl.
  - split; [exact Hnd|]. intros name. rewrite elem_of_nil. tauto.
  - destruct (IH _ (tool_names_register_NoDup self n f Hnd)) as [Hnd' Hmem].
    split; [exact Hnd'|]. intros name.
    rewrite Hmem, tool_names_register_elem, elem_of_cons. tauto.
Qed.

(** X7.  After any sequence of registrations on a new router, [tool_names]
    lists every registered name, nothing else, and no name twice; and a
    name is listed exactly when [has_tool] answers [True] for it. *)
Theorem tool_names_registered (regs : list (string * Router.handler W)) name :
  NoDup (Ordered.tool_names (Ordered.registered regs)) /\
  (name ∈ Ordered.tool_names (Ordered.registered regs) <-> name ∈ regs.*1) /\
  (Ordered.has_tool (Ordered.registered regs) name = true <-> name ∈ regs.*1).
Proof.
  destruct (foldl_register_names regs Ordered.new (NoDup_nil_2)) as [Hnd Hmem].
  assert (Hiff : name ∈ Ordered.tool_names (Ordered.registered regs)
                 <-> name ∈ regs.*1).
  { unfold Ordered.registered. rewrite Hmem. simpl. rewrite elem_of_nil. tauto. }
  split; [exact Hnd|]. split; [exact Hiff|].
  unfold Ordered.has_tool. rewrite bool_decide_eq_true. exact Hiff.
Qed.

(** X8.  Two different names registered on a new router are listed in the
    order of their registration, and registering the first one again changes
    neither the list nor its order while [dispatch] calls the new handler. *)
Theorem tool_names_in_registration_order a b (ha hb ha' : Router.handler W)
    (arguments : pydict) (w : W) :
  a <> b ->
  Ordered.tool_names (Ordered.registered [(a, ha); (b, hb)]) = [a; b] /\
  Ordered.tool_names (Ordered.registered [(a, ha); (b, hb); (a, ha')]) = [a; b] /\
  Ordered.dispatch (Ordered.registered [(a, ha); (b, hb); (a, ha')]) a arguments w
    = ha' arguments w.
Proof.
  intros Hne. unfold Ordered.registered, Ordered.tool_names, Ordered.dispatch.
  simpl. rewrite !decide_False by done. simpl.
  rewrite !decide_True by done. simpl.
  by rewrite !decide_True by done.
Qed.
End OrderedRouter.

Lemma tool_names_in_registration_order_witness :
  Ordered.tool_names
    (Ordered.registered [("tool_a", Bench.echo_handler); ("tool_b", Bench.raising_handler)])
  = ["tool_a"; "tool_b"].
Proof.
  apply (tool_names_in_registration_order "tool_a" "tool_b"
           Bench.echo_handler Bench.raising_handler Bench.echo_handler ∅ []).
  discriminate.
Defined.

(** ** Response envelopes: keys and composition *)

Lemma append_assoc (s1 s2 s3 : string) :
  (s1 +:+ s2) +:+ s3 = s1 +:+ s2 +:+ s3.
Proof.
  induction s1 as [|a s1 IH]; [reflexivity|].
  change (String a ((s1 +:+ s2) +:+ s3) = String a (s1 +:+ s2 +:+ s3)).
  by rewrite IH.
Qed.

(** X9.  The message of [not_found_response] names both the kind of the
    resource and its identifier, whatever the two strings are. *)
Theorem not_found_names_resource (resource_type resource_id : string) :
  exists msg,
    not_found_response resource_type resource_id !! "error" = Some (VStr msg) /\
    not_found_response resource_type resource_id !! "success" = Some (VBool false) /\
    contains msg resource_type /\
    contains msg resource_id /\
    contains msg (resource_type +:+ " not found") .
Proof.
  exists (resource_type +:+ " not found: " +:+ resource_id).
  split; [reflexivity|]. split; [reflexivity|]. split; [|split].
  - exists EmptyString, (" not found: " +:+ resource_id). reflexivity.
  - exists (resource_type +:+ " not found: "), EmptyString.
    by rewrite append_empty_r, append_assoc.
  - exists EmptyString, (": " +:+ resource_id).
    change (EmptyString +:+ ?x) with x. by rewrite append_assoc.
Qed.

(** X10.  The constructors add their fixed keys and nothing else: the keys
    of what [success_response] returns are those of [kwargs] and [success],
    the keys of what [error_response] returns are those of [kwargs],
    [success] and [error]. *)
Theorem envelope_keys (error : string) (kwargs : pydict) :
  dom (success_response kwargs) = {[ "success" ]} ∪ dom kwargs /\
  dom (error_response error kwargs) = {[ "success"; "error" ]} ∪ dom kwargs.
Proof.
  unfold success_response, error_response.
  rewrite !dom_union_L, dom_insert_L, !dom_singleton_L.
  split; apply set_eq; intros x; rewrite !elem_of_union, !elem_of_singleton; tauto.
Qed.

(** X11.  A mapping that already has a [success] key goes through
    [success_response] unchanged.  So [success_response] applied to its own
    result changes nothing, and an error envelope unpacked into
    [success_response] stays the error envelope it was. *)
Theorem success_response_keeps_envelopes (error : string) (kwargs : pydict) :
  (is_Some (kwargs !! "success") -> success_response kwargs = kwargs) /\
  success_response (success_response kwargs) = success_response kwargs /\
  success_response (error_response error kwargs) = error_response error kwargs.
Proof.
  assert (Hfix : forall m : pydict,
            is_Some (m !! "success") -> success_response m = m).
  { intros m [v Hv]. apply map_eq. intros k.
    rewrite success_response_lookup.
    destruct (m !! k) as [x|] eqn:Hk; [reflexivity|].
    case_decide as Hs; [|reflexivity]. subst k. congruence. }
  split; [apply Hfix|]. split; apply Hfix.
  - rewrite success_response_lookup.
    destruct (kwargs !! "success"); [eauto|]. rewrite decide_True by done. eauto.
  - rewrite error_response_lookup.
    destruct (kwargs !! "success"); [eauto|].
    rewrite decide_False by done. rewrite decide_True by done. eauto.
Qed.

Lemma success_response_keeps_envelopes_witness :
  success_response {[ "success" := VBool false; "error" := VStr "e" ]}
  = {[ "success" := VBool false; "error" := VStr "e" ]}.
Proof.
  apply (success_response_keeps_envelopes "e"
           {[ "success" := VBool false; "error" := VStr "e" ]}).
  by eexists.
Defined.

(** ** The protected call handler: the other paths *)

Section HandleToolCallPaths.
Context {W : Type}.
Variable logger_exception : string -> exc -> W -> W.
Variable json_dumps : option nat -> bool -> pyval -> result string.

Local Abbreviation call_tool := (Server._handle_tool_call logger_exception json_dumps).
Local Abbreviation call_tool_traced :=
  (Server._handle_tool_call (fun msg e => on_world (logger_exception msg e)) json_dumps).
Local Abbreviation traced_from f hs :=
  (imap (fun (k : nat) '(exc_type, h) =>
           (exc_type, fun e name => traced (CallErrorHandler (f k)) (h e name)))
        (hs : list (pyclass * Server.recovery W))).

Implicit Types (self : @Server.MCPServerBase W) (e : exc) (w : W)
  (hs : list (pyclass * Server.recovery W)).

(** The scan either finds no matching entry, or stops at the first index
    whose class [e] is an instance of; the observed chain stops at the same
    index. *)
Lemma scan_cases (f : nat -> nat) hs e :
  (Forall (fun entry => isinstance e entry.1 = false) hs /\
   first_match hs e = None /\
   first_match (traced_from f hs) e = None) \/
  (exists k exc_type h,
     hs !! k = Some (exc_type, h) /\
     isinstance e exc_type = true /\
     (forall j entry, j < k -> hs !! j = Some entry -> isinstance e entry.1 = false) /\
     first_match hs e = Some (exc_type, h) /\
     first_match (traced_from f hs) e
       = Some (exc_type, fun e name => traced (CallErrorHandler (f k)) (h e name))).
Proof.
  revert f. induction hs as [|[exc_type h] rest IH]; intros f.
  - left. split; [constructor | split; reflexivity].
  - destruct (isinstance e exc_type) eqn:He.
    + right. exists 0, exc_type, h. split; [reflexivity|]. split; [exact He|].
      split; [intros j entry Hj; lia|].
      unfold first_match. simpl. by rewrite He.
    + destruct (IH (f ∘ S)) as [(Hall & Hn & Hnt) | (k & t & h' & Hk & Ht & Hmin & Hm & Hmt)].
      * left. split; [by constructor|].
        unfold first_match in *. simpl. rewrite He. split; [exact Hn | exact Hnt].
      * right. exists (S k), t, h'. split; [exact Hk|]. split; [exact Ht|].
        split.
        { intros [|j] entry Hj Hlook.
          - simpl in Hlook. injection Hlook as <-. exact He.
          - simpl in Hlook. apply (Hmin j); [lia | exact Hlook]. }
        unfold first_match in *. simpl. rewrite He. split; [exact Hm | exact Hmt].
Qed.

Lemma scan_at_index hs e i exc_type h (f : nat -> nat) :
  hs !! i = Some (exc_type, h) ->
  isinstance e exc_type = true ->
  (forall j entry, j < i -> hs !! j = Some entry -> isinstance e entry.1 = false) ->
  first_match hs e = Some (exc_type, h) /\
  first_match (traced_from f hs) e
    = Some (exc_type, fun e name => traced (CallErrorHandler (f i)) (h e name)).
Proof.
  intros Hi He Hmin.
  destruct (scan_cases f hs e) as [(Hall & _) | (k & t & h' & Hk & Ht & Hkmin & Hm & Hmt)].
  - rewrite Forall_lookup in Hall. specialize (Hall i _ Hi). simpl in Hall. congruence.
  - assert (k = i) as ->.
    { destruct (lt_eq_lt_dec k i) as [[Hlt | Heq] | Hgt]; [|exact Heq|].
      - specialize (Hmin k _ Hlt Hk). simpl in Hmin. congruence.
      - specialize (Hkmin i _ Hgt Hi). simpl in Hkmin. congruence. }
    rewrite Hi in Hk. injection Hk as <- <-. split; [exact Hm | exact Hmt].
Qed.

(** X12.  When [handle_tool] returns and its result serialises,
    [_handle_tool_call] returns one text content holding that text, in the
    world [handle_tool] left: nothing is logged and no recovery function is
    called. *)
Theorem handle_tool_call_returns self name arguments w (result : pydict) w1 s :
  Server.handle_tool self name arguments w = (Ok result, w1) ->
  json_dumps (Some 2) true (VDict result) = Ok s ->
  call_tool self name arguments w
    = (Ok [ {| Server.type := "text"; Server.text := s |} ], w1) /\
  (forall calls,
     call_tool_traced (traced_server self) name arguments (w, calls)
     = (Ok [ {| Server.type := "text"; Server.text := s |} ],
        (w1, calls ++ [CallHandleTool])%list)).
Proof.
  intros Hret Hs. split.
  - unfold Server._handle_tool_call, try_except_Exception, bind, lift_result, ret.
    by rewrite Hret, Hs.
  - intros calls.
    unfold Server._handle_tool_call, try_except_Exception, bind, lift_result, ret.
    simpl. unfold traced. simpl. by rewrite Hret, Hs.
Qed.

(** X13.  A result that [json.dumps] refuses is handled as a failure of the
    call: the exception [json.dumps] raised goes through the chain and the
    default handler exactly as if [handle_tool] had raised it in the world
    it left. *)
Theorem serialisation_failure_is_handled self name arguments w
    (result : pydict) w1 e :
  Server.handle_tool self name arguments w = (Ok result, w1) ->
  json_dumps (Some 2) true (VDict result) = Raise e ->
  call_tool self name arguments w =
  if isinstance e Builtins.Exception then
    match first_match (Server._error_handlers self) e with
    | Some entry => entry.2 e name w1
    | None => Server.default_handler logger_exception json_dumps e name w1
    end
  else (Raise e, w1).
Proof.
  intros Hret Hs.
  unfold Server._handle_tool_call, try_except_Exception.
  unfold bind at 1. rewrite Hret. unfold bind at 1, lift_result. rewrite Hs.
  destruct (isinstance e Builtins.Exception); [|reflexivity].
  rewrite scan_first_match. by destruct (first_match _ e).
Qed.

(** X14.  In a chain of any length the entry that answers is the first one,
    at whatever index, whose class the exception is an instance of:
    [_handle_tool_call] is the call of its recovery function, and the calls
    observed are [handle_tool] and that entry alone. *)
Theorem first_match_at_any_index self name arguments w e w1 i
    (exc_type : pyclass) (h : Server.recovery W) :
  Server.handle_tool self name arguments w = (Raise e, w1) ->
  isinstance e Builtins.Exception = true ->
  Server._error_handlers self !! i = Some (exc_type, h) ->
  isinstance e exc_type = true ->
  (forall j entry, j < i -> Server._error_handlers self !! j = Some entry ->
                   isinstance e entry.1 = false) ->
  call_tool self name arguments w = h e name w1 /\
  (forall calls,
     call_tool_traced (traced_server self) name arguments (w, calls) =
     let '(r, w2) := h e name w1 in
     (r, (w2, calls ++ [CallHandleTool; CallErrorHandler i])%list)).
Proof.
  intros Hraise Hcaught Hi He Hmin.
  destruct (scan_at_index _ e i exc_type h id Hi He Hmin) as [Hm Hmt].
  split.
  - by rewrite (handle_tool_call_raised _ _ _ _ _ _ _ _ Hraise), Hcaught, Hm.
  - intros calls.
    rewrite (handle_tool_call_raised _ _ _ _ _ _ _ _
               (traced_handle_tool_raised _ _ _ _ _ _ calls Hraise)).
    rewrite Hcaught.
    change (Server._error_handlers (traced_server self))
      with (traced_from id (Server._error_handlers self)).
    rewrite Hmt. simpl. unfold traced. simpl.
    destruct (h e name w1) as [r w2]. by rewrite <- (assoc_L (++)).
Qed.

End HandleToolCallPaths.

Lemma handle_tool_call_returns_witness :
  exists s,
    Server._handle_tool_call Bench.logger_exception Bench.sample_dumps
      (Bench.router_server Bench.echo_router []) "echo" ∅ []
    = (Ok [ {| Server.type := "text"; Server.text := s |} ], ["echo"]).
Proof.
  eexists.
  apply (handle_tool_call_returns Bench.logger_exception Bench.sample_dumps
           (Bench.router_server Bench.echo_router []) "echo" ∅ []
           (success_response ∅) ["echo"]); reflexivity.
Defined.

Lemma serialisation_failure_is_handled_witness :
  exists s,
    Server._handle_tool_call Bench.logger_exception Bench.picky_dumps
      (Bench.router_server Bench.looping_router []) "loop" ∅ []
    = (Ok [ {| Server.type := "text"; Server.text := s |} ],
       ["ERROR Unexpected error in tool loop: Circular reference detected"]).
Proof.
  eexists.
  rewrite (serialisation_failure_is_handled Bench.logger_exception Bench.picky_dumps
             (Bench.router_server Bench.looping_router []) "loop" ∅ []
             {[ "loop" := VNone ]} []
             (Exc Builtins.ValueError "Circular reference detected")
             eq_refl eq_refl).
  reflexivity.
Defined.

Lemma first_match_at_any_index_witness :
  Bench.call_tool Bench.second_entry_server "tool" []
  = Bench.reply "base" (Exc Bench.SpecificError "oops") "tool" [].
Proof.
  apply (first_match_at_any_index Bench.logger_exception Bench.sample_dumps
           Bench.second_entry_server "tool" ∅ [] (Exc Bench.SpecificError "oops") []
           1 Bench.BaseError (Bench.reply "base")); try reflexivity.
  intros [|j] entry Hj Hlook; [|lia].
  injection Hlook as <-. reflexivity.
Defined.


(** ** The server on top of a router, and its construction *)

Section Composition.
Context {W : Type}.
Variable logger_exception : string -> exc -> W -> W.
Variable json_dumps : option nat -> bool -> pyval -> result string.

Local Abbreviation call_tool := (Server._handle_tool_call logger_exception json_dumps).

Implicit Types (self : @Server.MCPServerBase W) (router : Router.ToolRouter W)
  (e : exc) (w : W).

(** X16.  For a server whose [handle_tool] is [router.dispatch], a call of
    a tool the router does not have is an ordinary answer: the text is the
    serialised unknown-tool envelope, the world is untouched, nothing is
    logged and the error-handler chain plays no part. *)
Theorem unknown_tool_is_an_ordinary_answer self router name arguments w s :
  Server.handle_tool self = Router.dispatch router ->
  Router.has_tool router name = false ->
  json_dumps (Some 2) true
    (VDict (error_response ("Unknown tool: " +:+ name) ∅)) = Ok s ->
  call_tool self name arguments w
    = (Ok [ {| Server.type := "text"; Server.text := s |} ], w).
Proof.
  intros Hdisp Hno Hs.
  unfold Server._handle_tool_call, try_except_Exception, bind, lift_result, ret.
  rewrite Hdisp. unfold Router.dispatch.
  unfold Router.has_tool in Hno. apply bool_decide_eq_false in Hno.
  destruct (Router._handlers router !! name) as [h|] eqn:Hh.
  - exfalso. apply Hno. by exists h.
  - unfold ret. by rewrite Hs.
Qed.

Hypothesis json_dumps_flat :
  forall indent default_str (d : pydict),
    map_Forall (fun _ v => scalar v = true) d ->
    exists s, json_dumps indent default_str (VDict d) = Ok s.

(** X17.  For a server whose [handle_tool] is [router.dispatch], an
    instance of [Exception] raised by the registered handler passes through
    [dispatch] and stops at the server: with no matching entry, and [str]
    giving the text [message] for it, it is logged and answered with the
    internal-error envelope, in the world the handler left. *)
Theorem handler_failure_stops_at_server self router name
    (h : Router.handler W) arguments w e w1 (message : string) :
  Server.handle_tool self = Router.dispatch router ->
  Router._handlers router !! name = Some h ->
  h arguments w = (Raise e, w1) ->
  isinstance e Builtins.Exception = true ->
  Forall (fun entry => isinstance e entry.1 = false) (Server._error_handlers self) ->
  str e = Ok message ->
  Router.dispatch router name arguments w = (Raise e, w1) /\
  exists s,
    json_dumps None false
      (VDict (error_response ("Internal error: " +:+ message) ∅)) = Ok s /\
    call_tool self name arguments w
      = (Ok [ {| Server.type := "text"; Server.text := s |} ],
         logger_exception ("Unexpected error in tool " +:+ name) e w1).
Proof.
  intros Hdisp Hh Hraise Hcaught Hnone Hstr.
  assert (Hd : Router.dispatch router name arguments w = (Raise e, w1))
    by (unfold Router.dispatch; by rewrite Hh).
  split; [exact Hd|].
  destruct (json_dumps_flat None false _ (internal_error_scalar message)) as [s Hs].
  exists s. rewrite <- internal_error_is_error_response. split; [exact Hs|].
  assert (Hht : Server.handle_tool self name arguments w = (Raise e, w1))
    by (by rewrite Hdisp).
  rewrite (handle_tool_call_raised _ _ _ _ _ _ _ _ Hht), Hcaught.
  rewrite (first_match_none _ _ Hnone), default_handler_unfold. by rewrite Hstr, Hs.
Qed.

(** X18.  A server constructed with [error_handlers] left out, or given as
    an empty list, has an empty chain, and a non-empty list is stored as
    given; with the empty chain every instance of [Exception] raised by
    [handle_tool] for which [str] gives a text gets the default answer. *)
Theorem constructed_without_error_handlers
    (server_name server_description : string)
    (handle_tool : string -> pydict -> M W pydict)
    (startup_hook : option (M W unit)) (health_check : option (M W Z))
    (error_handlers : option (list (pyclass * Server.recovery W)))
    name arguments w e w1 (message : string) :
  error_handlers = None \/ error_handlers = Some [] ->
  handle_tool name arguments w = (Raise e, w1) ->
  isinstance e Builtins.Exception = true ->
  str e = Ok message ->
  let self := Construction.__init__ server_name server_description handle_tool
                startup_hook health_check error_handlers in
  Server._error_handlers self = [] /\
  (forall entry rest,
     Server._error_handlers
       (Construction.__init__ server_name server_description handle_tool
          startup_hook health_check (Some (entry :: rest))) = entry :: rest) /\
  exists s,
    json_dumps None false (VDict (Server.internal_error message)) = Ok s /\
    call_tool self name arguments w
      = (Ok [ {| Server.type := "text"; Server.text := s |} ],
         logger_exception ("Unexpected error in tool " +:+ name) e w1).
Proof.
  intros Hnone Hraise Hcaught Hstr self.
  assert (Hchain : Server._error_handlers self = [])
    by (by destruct Hnone as [-> | ->]).
  split; [exact Hchain|]. split; [reflexivity|].
  destruct (json_dumps_flat None false _ (internal_error_scalar message)) as [s Hs].
  exists s. split; [exact Hs|].
  assert (Hht : Server.handle_tool self name arguments w = (Raise e, w1))
    by exact Hraise.
  rewrite (handle_tool_call_raised _ _ _ _ _ _ _ _ Hht), Hcaught, Hchain.
  rewrite default_handler_unfold. by rewrite Hstr, Hs.
Qed.
End Composition.

Lemma unknown_tool_is_an_ordinary_answer_witness :
  exists s,
    Server._handle_tool_call Bench.logger_exception Bench.sample_dumps
      (Bench.router_server Bench.echo_router []) "missing" ∅ []
    = (Ok [ {| Server.type := "text"; Server.text := s |} ], []).
Proof.
  eexists.
  apply (unknown_tool_is_an_ordinary_answer Bench.logger_exception Bench.sample_dumps
           (Bench.router_server Bench.echo_router []) Bench.echo_router
           "missing" ∅ []); reflexivity.
Defined.

Lemma handler_failure_stops_at_server_witness :
  exists s,
    Server._handle_tool_call Bench.logger_exception Bench.sample_dumps
      (Bench.router_server Bench.mixed_router []) "boom" ∅ []
    = (Ok [ {| Server.type := "text"; Server.text := s |} ],
       ["ERROR Unexpected error in tool boom: bad input"]).
Proof.
  destruct (handler_failure_stops_at_server Bench.logger_exception Bench.sample_dumps
              sample_dumps_flat
              (Bench.router_server Bench.mixed_router []) Bench.mixed_router "boom"
              Bench.raising_handler ∅ [] (Exc Builtins.ValueError "bad input") []
              "bad input" eq_refl eq_refl eq_refl eq_refl (Forall_nil_2 _) eq_refl)
    as (_ & s & _ & Hcall).
  exists s. exact Hcall.
Defined.

Lemma constructed_without_error_handlers_witness :
  exists s,
    Server._handle_tool_call Bench.logger_exception Bench.sample_dumps
      (Construction.__init__ "test" "MCP Server"
         (fun _ _ => raise (Exc Builtins.RuntimeError "Unknown error"))
         None None None) "generic_error" ∅ []
    = (Ok [ {| Server.type := "text"; Server.text := s |} ],
       ["ERROR Unexpected error in tool generic_error: Unknown error"]).
Proof.
  destruct (constructed_without_error_handlers Bench.logger_exception
              Bench.sample_dumps sample_dumps_flat "test" "MCP Server"
              (fun _ _ => raise (Exc Builtins.RuntimeError "Unknown error"))
              None None None "generic_error" ∅ []
              (Exc Builtins.RuntimeError "Unknown error") [] "Unknown error"
              (or_introl eq_refl) eq_refl eq_refl eq_refl)
    as (_ & _ & s & _ & Hcall).
  exists s. exact Hcall.
Defined.

(** ** The run operation: the other paths *)

Section RunPaths.
Context {W : Type}.
Variable logger_info : string -> W -> W.
Variable logger_exception : string -> exc -> W -> W.
Variable argparse_parse_args : Server.ArgumentParser -> M W Server.Namespace.
Variable asyncio_run_main : M W unit.

Local Abbreviation parse_args := (Server.parse_args argparse_parse_args).
Local Abbreviation run :=
  (Server.run logger_info logger_exception argparse_parse_args asyncio_run_main).
Local Abbreviation run_traced :=
  (Server.run (fun msg => on_world (logger_info msg))
              (fun msg e => on_world (logger_exception msg e))
              (fun parser => untraced (argparse_parse_args parser))
              (traced CallServe asyncio_run_main)).

Implicit Types (self : @Server.MCPServerBase W) (e : exc) (w : W).

(** X20.  When parsing the arguments fails, [run()] leaves with that
    failure at once: nothing is logged, and neither the health check, the
    startup hook nor the serve loop is called. *)
Theorem run_stops_when_parsing_fails self w e w1 :
  parse_args self w = (Raise e, w1) ->
  run self w = (Raise e, w1) /\
  (forall calls, run_traced (traced_server self) (w, calls) = (Raise e, (w1, calls))).
Proof.
  intros Hparse. split.
  - unfold Server.run. unfold bind at 1. by rewrite Hparse.
  - intros calls. unfold Server.run. unfold bind at 1.
    rewrite parse_args_traced. unfold untraced. simpl. by rewrite Hparse.
Qed.

(** X21.  In health-check mode a health check that raises makes [run()]
    raise that exception, not a [SystemExit]; the startup hook and the
    serve loop are not called and nothing is logged. *)
Theorem health_check_failure_propagates self w args w1 (health_check : M W Z) e w2 :
  Server._health_check self = Some health_check ->
  parse_args self w = (Ok args, w1) ->
  Server.getattr args "health_check" false = true ->
  health_check w1 = (Raise e, w2) ->
  run self w = (Raise e, w2) /\
  (forall calls,
     run_traced (traced_server self) (w, calls)
     = (Raise e, (w2, calls ++ [CallHealthCheck])%list)).
Proof.
  intros Hhc Hparse Hflag Hraise. split.
  - unfold Server.run. unfold bind at 1. rewrite Hparse.
    unfold bind at 1. rewrite Hhc, Hflag.
    unfold bind at 1. by rewrite Hraise.
  - intros calls. unfold Server.run. unfold bind at 1.
    rewrite parse_args_traced. unfold untraced at 1. simpl. rewrite Hparse.
    unfold bind at 1. simpl. rewrite Hhc. simpl. rewrite Hflag.
    unfold bind at 1. unfold traced at 1. simpl. by rewrite Hraise.
Qed.

(** X22.  Without a startup hook, and outside health-check mode, [run()]
    logs the start and is the serve loop, whatever the arguments say about
    skipping; a health check that was supplied but not asked for is not
    called. *)
Theorem run_without_startup_hook self w args w1 :
  Server._startup_hook self = None ->
  parse_args self w = (Ok args, w1) ->
  Server._health_check self = None \/
    Server.getattr args "health_check" false = false ->
  let w2 := logger_info (Server.server_name self +:+ " MCP server starting...") w1 in
  run self w = asyncio_run_main w2 /\
  (forall calls,
     run_traced (traced_server self) (w, calls) =
     let '(r, w3) := asyncio_run_main w2 in (r, (w3, calls ++ [CallServe])%list)).
Proof.
  intros Hhook Hparse Hmode w2. split.
  - rewrite (run_serve_mode _ _ _ _ _ _ _ _ Hparse Hmode), Hhook. reflexivity.
  - intros calls.
    destruct (traced_serve_mode argparse_parse_args self w args w1 calls Hparse Hmode)
      as [Hp Hm].
    rewrite (run_serve_mode _ _ _ _ _ _ _ _ Hp Hm). simpl. rewrite Hhook. simpl.
    unfold bind, ret, traced. simpl. fold w2.
    by destruct (asyncio_run_main w2) as [r w3].
Qed.
End RunPaths.

Lemma run_stops_when_parsing_fails_witness :
  Bench.run_with ["--bogus"] (Bench.hook_server Bench.marking_hook) []
  = (Raise (SysExit 2), []).
Proof.
  apply (run_stops_when_parsing_fails Bench.logger_info Bench.logger_exception
           (Bench.parse_argv ["--bogus"]) Bench.serve
           (Bench.hook_server Bench.marking_hook) [] (SysExit 2) []).
  reflexivity.
Defined.

Lemma health_check_failure_propagates_witness :
  Bench.run_with ["--health-check"]
    (Bench.server (Some Bench.marking_hook) (Some Bench.failing_health_check) []
       (Exc Builtins.RuntimeError "unused")) []
  = (Raise (Exc Builtins.RuntimeError "probe failed"), []).
Proof.
  apply (health_check_failure_propagates Bench.logger_info Bench.logger_exception
           (Bench.parse_argv ["--health-check"]) Bench.serve
           (Bench.server (Some Bench.marking_hook) (Some Bench.failing_health_check) []
              (Exc Builtins.RuntimeError "unused")) []
           (list_to_map [("health_check", true); ("skip_startup_hook", false)])
           [] Bench.failing_health_check
           (Exc Builtins.RuntimeError "probe failed") []); reflexivity.
Defined.

Lemma run_without_startup_hook_witness :
  Bench.run_with []
    (Bench.server None (Some (ret 0%Z)) [] (Exc Builtins.RuntimeError "unused")) []
  = Bench.serve ["INFO test MCP server starting..."].
Proof.
  apply (run_without_startup_hook Bench.logger_info Bench.logger_exception
           (Bench.parse_argv []) Bench.serve
           (Bench.server None (Some (ret 0%Z)) [] (Exc Builtins.RuntimeError "unused"))
           [] (list_to_map [("health_check", false)]) []
           eq_refl eq_refl (or_intror eq_refl)).
Defined.
